(** * Caxx-radar: polar extraction, georeferencing, gridding and export

    A shallow embedding of [src/io/read_azi.py], [src/georef/polar.py],
    [src/georef/gridding.py] and [scripts/parse_azi.py].

    Modelling conventions.
    - A Python/NumPy float is a value of [float]: a finite number (an exact
      rational), one of the two infinities, or NaN.  Signed zeros are not
      distinguished.  In the extractor the rounding of float64 arithmetic
      is idealised away; in the gridding step, where the number of grid
      points depends on it, every arithmetic result is rounded by a
      function [f64] that the development is parametric in.
    - A raised Python exception is the [Raise] branch of [result].
    - The decoded Rainbow tree is a [pyval]; a [dict] is an association list
      whose first binding of a key is the live one.
    - A NumPy array is its shape together with its elements in row-major
      order.
    - Functions of external libraries whose numeric content is outside the
      repository (string parsing, pyproj, the float32 cast, float64
      rounding) are variables of the sections that use them.  The two
      calls into [wradlib.georef] are modelled by what Python does with
      them: one lacks a required argument, the other names a function the
      module does not have. *)

From Stdlib Require Import String ZArith QArith Qround Qabs List Bool Lia Lqa Arith DecimalString.
Import ListNotations.
Open Scope string_scope.
Open Scope list_scope.
Set Warnings "-register-all".

(** ** Floats *)

Inductive float : Type :=
| Fin (q : Q)
| PInf
| NInf
| NaN.

Definition isfinite (f : float) : bool :=
  match f with Fin _ => true | _ => false end.

Definition fneg (a : float) : float :=
  match a with
  | Fin q => Fin (- q)
  | PInf => NInf
  | NInf => PInf
  | NaN => NaN
  end.

Definition fadd (a b : float) : float :=
  match a, b with
  | NaN, _ | _, NaN => NaN
  | Fin x, Fin y => Fin (x + y)
  | PInf, NInf | NInf, PInf => NaN
  | PInf, _ | _, PInf => PInf
  | NInf, _ | _, NInf => NInf
  end.

Definition fsub (a b : float) : float := fadd a (fneg b).

(** Sign of a rational as a comparison with zero. *)
Definition qsign (q : Q) : comparison := Qcompare q 0.

Definition inf_of_sign (c : comparison) : float :=
  match c with Gt => PInf | Lt => NInf | Eq => NaN end.

Definition flip (c : comparison) : comparison := CompOpp c.

Definition fmul (a b : float) : float :=
  match a, b with
  | NaN, _ | _, NaN => NaN
  | Fin x, Fin y => Fin (x * y)
  | PInf, Fin y | Fin y, PInf => inf_of_sign (qsign y)
  | NInf, Fin y | Fin y, NInf => inf_of_sign (flip (qsign y))
  | PInf, PInf | NInf, NInf => PInf
  | PInf, NInf | NInf, PInf => NInf
  end.

Definition fdiv (a b : float) : float :=
  match a, b with
  | NaN, _ | _, NaN => NaN
  | Fin x, Fin y =>
      match qsign y with
      | Eq => inf_of_sign (qsign x)
      | _ => Fin (x / y)
      end
  | Fin _, _ => Fin 0
  | PInf, Fin y => match qsign y with Lt => NInf | _ => PInf end
  | NInf, Fin y => match qsign y with Lt => PInf | _ => NInf end
  | _, _ => NaN
  end.

(** [a <= b] and [a < b] on floats; false as soon as a NaN is involved. *)
Definition fle (a b : float) : bool :=
  match a, b with
  | NaN, _ | _, NaN => false
  | NInf, _ | _, PInf => true
  | Fin x, Fin y => Qle_bool x y
  | _, _ => false
  end.

Definition flt (a b : float) : bool :=
  match a, b with
  | NaN, _ | _, NaN => false
  | _, _ => negb (fle b a)
  end.

Definition of_Z (z : Z) : float := Fin (inject_Z z).
Definition of_nat (n : nat) : float := of_Z (Z.of_nat n).

(** ** Exceptions *)

Inductive exn : Type :=
| ValueError (msg : string)
| OverflowError (msg : string)
| IndexError (msg : string)
| KeyError (key : string)
| TypeError (msg : string)
| AttributeError (msg : string)
| CRSError (epsg : Z).

Inductive result (A : Type) : Type :=
| Ok (a : A)
| Raise (e : exn).
Arguments Ok {A} a.
Arguments Raise {A} e.

Definition bind {A B} (r : result A) (k : A -> result B) : result B :=
  match r with
  | Ok a => k a
  | Raise e => Raise e
  end.

Notation "x <- r ;; k" := (bind r (fun x => k))
  (at level 61, r at next level, right associativity).
Notation "' p <- r ;; k" := (bind r (fun p => k))
  (at level 61, p pattern, r at next level, right associativity).

Fixpoint mapM {A B} (f : A -> result B) (l : list A) : result (list B) :=
  match l with
  | [] => Ok []
  | a :: t => b <- f a ;; bs <- mapM f t ;; Ok (b :: bs)
  end.

(** ** Arrays *)

Record ndarray : Type := mk_ndarray {
  shape : list nat;
  flat : list float
}.

Definition size_of (sh : list nat) : nat := fold_right Nat.mul 1%nat sh.

Definition wf_array (a : ndarray) : Prop :=
  length (flat a) = size_of (shape a).

(** [a.shape[-1]] and [a.shape[0]]: indexing the shape tuple. *)
Definition shape_last (a : ndarray) : result nat :=
  match rev (shape a) with
  | n :: _ => Ok n
  | [] => Raise (IndexError "tuple index out of range")
  end.

Definition shape_first (a : ndarray) : result nat :=
  match shape a with
  | n :: _ => Ok n
  | [] => Raise (IndexError "tuple index out of range")
  end.

(** ** Decoded trees *)

Inductive pyval : Type :=
| PNone
| PFloat (f : float)
| PInt (z : Z)
| PStr (s : string)
| PDict (d : list (string * pyval))
| PList (l : list pyval)
| PArr (a : ndarray).

Definition dict := list (string * pyval).

Fixpoint lookup (k : string) (d : dict) : option pyval :=
  match d with
  | [] => None
  | (k', v) :: t => if String.eqb k k' then Some v else lookup k t
  end.

(** [d.get(k, default)] *)
Definition dict_get (d : dict) (k : string) (default : pyval) : pyval :=
  match lookup k d with
  | Some v => v
  | None => default
  end.

(** [k in d] for a dict *)
Definition dict_mem (k : string) (d : dict) : bool :=
  match lookup k d with Some _ => true | None => false end.

(** ** Python operations on decoded values *)

Definition truncate (q : Q) : Z := Z.quot (Qnum q) (Zpos (Qden q)).

(** [k in v] *)
Definition py_in (k : string) (v : pyval) : result bool :=
  match v with
  | PDict d => Ok (dict_mem k d)
  | PStr s => Ok (match index 0 k s with Some _ => true | None => false end)
  | PList l =>
      Ok (existsb (fun x => match x with PStr s => String.eqb k s | _ => false end) l)
  | PArr _ => Ok false
  | _ => Raise (TypeError "argument is not iterable")
  end.

(** [v[k]] for a string key *)
Definition py_getitem (v : pyval) (k : string) : result pyval :=
  match v with
  | PDict d =>
      match lookup k d with
      | Some x => Ok x
      | None => Raise (KeyError k)
      end
  | PArr _ => Raise (IndexError "only integers and slices are valid indices")
  | _ => Raise (TypeError "indices must be integers")
  end.

(** [v[0]] *)
Definition py_getitem0 (v : pyval) : result pyval :=
  match v with
  | PList (x :: _) => Ok x
  | PList [] => Raise (IndexError "list index out of range")
  | PStr (String c _) => Ok (PStr (String c EmptyString))
  | PStr EmptyString => Raise (IndexError "string index out of range")
  | PDict _ => Raise (KeyError "0")
  | PArr a =>
      match shape a with
      | [] => Raise (IndexError "too many indices for array")
      | O :: _ => Raise (IndexError "index 0 is out of bounds")
      | S _ :: sh => Ok (PArr (mk_ndarray sh (firstn (size_of sh) (flat a))))
      end
  | _ => Raise (TypeError "object is not subscriptable")
  end.

(** [v.get(k, default)]: only a dict has the method. *)
Definition py_get (v : pyval) (k : string) (default : pyval) : result pyval :=
  match v with
  | PDict d => Ok (dict_get d k default)
  | _ => Raise (AttributeError "object has no attribute 'get'")
  end.

Fixpoint chars (s : string) : list pyval :=
  match s with
  | EmptyString => []
  | String c t => PStr (String c EmptyString) :: chars t
  end.

Fixpoint chunks (n : nat) (k : nat) (l : list float) : list (list float) :=
  match n with
  | O => []
  | S n' => firstn k l :: chunks n' k (skipn k l)
  end.

(** The items a [for] loop over [v] visits. *)
Definition py_iter (v : pyval) : result (list pyval) :=
  match v with
  | PList l => Ok l
  | PStr s => Ok (chars s)
  | PDict d => Ok (map (fun kv => PStr (fst kv)) d)
  | PArr a =>
      match shape a with
      | [] => Raise (TypeError "iteration over a 0-d array")
      | n :: sh =>
          Ok (map (fun c => PArr (mk_ndarray sh c)) (chunks n (size_of sh) (flat a)))
      end
  | _ => Raise (TypeError "object is not iterable")
  end.

(** [np.arange(n, dtype=float)]: empty when [n <= 0]. *)
Definition arange_n (n : Z) : list float :=
  map of_nat (seq 0 (Z.to_nat n)).

Definition fzero (f : float) : bool :=
  match f with Fin q => Qeq_bool q 0 | _ => false end.

(** [np.linspace(start, stop, num, endpoint=False)] *)
Definition linspace_open (start stop : float) (num : nat) : list float :=
  let delta := fsub stop start in
  let step := match num with O => NaN | _ => fdiv delta (of_nat num) end in
  map (fun i =>
         let y := match num with
                  | O => fmul (of_nat i) delta
                  | _ => if fzero step
                         then fmul (fdiv (of_nat i) (of_nat num)) delta
                         else fmul (of_nat i) step
                  end in
         fadd y start)
      (seq 0 num).

(** ** Polar datasets *)

(** An [xr.Dataset] with dims [(azimuth, range)], one data variable and the
    optional auxiliary coordinates [lon], [lat], [alt]. *)
Record Dataset : Type := mk_Dataset {
  ds_name : pyval;
  ds_values : ndarray;
  ds_var_attrs : dict;
  ds_azimuth : list float;
  ds_range : list float;
  ds_lon : option ndarray;
  ds_lat : option ndarray;
  ds_alt : option ndarray;
  ds_attrs : dict
}.

Record DataArray : Type := mk_DataArray {
  da_name : pyval;
  da_values : ndarray;
  da_attrs : dict;
  da_azimuth : list float;
  da_range : list float
}.

(** [xr.DataArray(data, dims=("azimuth","range"), coords=..., name=..., attrs=...)]:
    xarray refuses data that is not 2-D and coordinates whose length
    differs from the matching dimension of the data. *)
Definition xr_DataArray (data : ndarray) (az rng : list float)
           (name : pyval) (attrs : dict) : result DataArray :=
  match shape data with
  | [n_az; n_rng] =>
      if negb (Nat.eqb n_az (length az)) then
        Raise (ValueError "conflicting sizes for dimension 'azimuth'")
      else if negb (Nat.eqb n_rng (length rng)) then
        Raise (ValueError "conflicting sizes for dimension 'range'")
      else Ok (mk_DataArray name data attrs az rng)
  | _ => Raise (ValueError "different number of dimensions on data and dims")
  end.

(** [da.to_dataset()] *)
Definition to_dataset (da : DataArray) : result Dataset :=
  match da_name da with
  | PNone => Raise (ValueError "unable to convert unnamed DataArray to a Dataset")
  | PDict _ | PList _ | PArr _ => Raise (TypeError "unhashable type")
  | nm =>
      if match nm with
         | PStr s => String.eqb s "azimuth" || String.eqb s "range"
         | _ => false
         end
      then Raise (ValueError "cannot create a Dataset from a DataArray with the same name as one of its coordinates")
      else Ok (mk_Dataset nm (da_values da) (da_attrs da)
                 (da_azimuth da) (da_range da) None None None [])
  end.

(** [d.update(new)] on an association list: new bindings shadow old ones. *)
Definition dict_update (d new : dict) : dict := new ++ d.

Definition set_attrs (ds : Dataset) (a : dict) : Dataset :=
  mk_Dataset (ds_name ds) (ds_values ds) (ds_var_attrs ds) (ds_azimuth ds)
    (ds_range ds) (ds_lon ds) (ds_lat ds) (ds_alt ds) a.

(** ** src/io/read_azi.py *)

Section Extractor.

(** Python's grammar of float and int literals ([float(str)], [int(str)]). *)
Variable parse_float : string -> option float.
Variable parse_int : string -> option Z.
(** [np.asarray] on a value that is neither an array nor a number. *)
Variable asarray_other : pyval -> ndarray.
(** [Path(path).suffix.lower()] *)
Variable suffix_lower : string -> string.
(** [wrl.io.read_rainbow]: the vendor-format decoder. *)
Variable read_rainbow : string -> result pyval.

(** [float(x)] *)
Definition py_float (x : pyval) : result float :=
  match x with
  | PFloat f => Ok f
  | PInt z => Ok (of_Z z)
  | PStr s =>
      match parse_float s with
      | Some f => Ok f
      | None => Raise (ValueError "could not convert string to float")
      end
  | PArr a =>
      match flat a with
      | [f] => Ok f
      | _ => Raise (TypeError "only length-1 arrays can be converted to Python scalars")
      end
  | _ => Raise (TypeError "float() argument must be a string or a real number")
  end.

Definition int_of_float (f : float) : result Z :=
  match f with
  | Fin q => Ok (truncate q)
  | NaN => Raise (ValueError "cannot convert float NaN to integer")
  | _ => Raise (OverflowError "cannot convert float infinity to integer")
  end.

(** [int(x)] *)
Definition py_int (x : pyval) : result Z :=
  match x with
  | PInt z => Ok z
  | PFloat f => int_of_float f
  | PStr s =>
      match parse_int s with
      | Some z => Ok z
      | None => Raise (ValueError "invalid literal for int() with base 10")
      end
  | PArr a =>
      match flat a with
      | [f] => int_of_float f
      | _ => Raise (TypeError "only length-1 arrays can be converted to Python scalars")
      end
  | _ => Raise (TypeError "int() argument must be a string or a real number")
  end.

Definition np_asarray (v : pyval) : ndarray :=
  match v with
  | PArr a => a
  | PFloat f => mk_ndarray [] [f]
  | PInt z => mk_ndarray [] [of_Z z]
  | _ => asarray_other v
  end.

Definition detect_format (path : string) : string :=
  if String.eqb (suffix_lower path) ".azi" then "rainbow" else "unknown".

Definition msg_volume := "Estructura Rainbow inesperada: falta 'volume'.".
Definition msg_scan := "Estructura Rainbow inesperada: falta 'scan'.".
Definition msg_slice := "Estructura Rainbow inesperada: falta 'slice'.".
Definition msg_data := "Slice Rainbow sin 'data' decodificado.".

Definition _extract_slice (tree : pyval) : result pyval :=
  vol <- py_get tree "volume" PNone ;;
  match vol with
  | PNone => Raise (ValueError msg_volume)
  | _ =>
      scan <- py_get vol "scan" PNone ;;
      match scan with
      | PNone => Raise (ValueError msg_scan)
      | _ =>
          slc <- py_get scan "slice" PNone ;;
          match slc with
          | PNone => Raise (ValueError msg_slice)
          | _ => Ok slc
          end
      end
  end.

(** [k1 in slc and k2 in slc[k1]] *)
Definition declares (slc : pyval) (k1 k2 : string) : result bool :=
  c1 <- py_in k1 slc ;;
  if c1 : bool then (sub <- py_getitem slc k1 ;; py_in k2 sub) else Ok false.

Record Meta : Type := mk_Meta {
  elevation_deg : float;
  r0_m : float;
  dr_m : float
}.

Definition _get_data_and_axes (slc : pyval)
  : result (ndarray * list float * list float * Meta) :=
  has_data <- py_in "data" slc ;;
  if negb has_data then Raise (ValueError msg_data) else
  d <- py_getitem slc "data" ;;
  let data := np_asarray d in
  e <- py_get slc "@elevation" (PFloat (Fin 0)) ;;
  elev_deg <- py_float e ;;
  rs <- py_get slc "@rstart" (PFloat (Fin 0)) ;;
  r0 <- py_float rs ;;
  rc <- py_get slc "@rscale" (PFloat (Fin 1000)) ;;
  dr <- py_float rc ;;
  has_rays <- declares slc "rays" "ray" ;;
  n_rng <-
    (if has_rays : bool then
       rays <- py_getitem slc "rays" ;;
       ray <- py_getitem rays "ray" ;;
       first <- py_getitem0 ray ;;
       (* the bound method [.get] is looked up before its arguments run *)
       _ <- py_get first "@bins" PNone ;;
       last <- shape_last data ;;
       bins <- py_get first "@bins" (PInt (Z.of_nat last)) ;;
       py_int bins
     else
       last <- shape_last data ;; Ok (Z.of_nat last)) ;;
  let ranges_m := map (fun i => fadd r0 (fmul dr i)) (arange_n n_rng) in
  has_angles <- declares slc "angles" "a" ;;
  az_deg <-
    (if has_angles : bool then
       angles <- py_getitem slc "angles" ;;
       az_list <- py_getitem angles "a" ;;
       items <- py_iter az_list ;;
       mapM py_float items
     else
       n_az <- shape_first data ;;
       Ok (linspace_open (Fin 0) (Fin 360) n_az)) ;;
  Ok (data, az_deg, ranges_m, mk_Meta elev_deg r0 dr).

Definition _safe_float (x : pyval) : float :=
  match py_float x with
  | Ok f => f
  | Raise _ => NaN
  end.

Definition read_azi (path : string) : result Dataset :=
  let fmt := detect_format path in
  if negb (String.eqb fmt "rainbow") then
    Raise (ValueError ("Formato no soportado aún: " ++ fmt))
  else
  tree <- read_rainbow path ;;
  slc <- _extract_slice tree ;;
  '(data, az_deg, ranges_m, meta) <- _get_data_and_axes slc ;;
  param <- py_get slc "param" (PDict []) ;;
  units <- py_get param "@units" (PStr "dBZ") ;;
  pname <- py_get param "@name" (PStr "dBZ") ;;
  da <- xr_DataArray data az_deg ranges_m pname [("units", units)] ;;
  vol <- py_get tree "volume" (PDict []) ;;
  radar_info <- py_get vol "sensorinfo" (PDict []) ;;
  rlon <- py_get radar_info "@lon" (PFloat NaN) ;;
  let radar_lon := _safe_float rlon in
  rlat <- py_get radar_info "@lat" (PFloat NaN) ;;
  let radar_lat := _safe_float rlat in
  ralt <- py_get radar_info "@alt" (PFloat NaN) ;;
  let radar_alt := _safe_float ralt in
  ds <- to_dataset da ;;
  Ok (set_attrs ds
        (dict_update (ds_attrs ds)
           [ ("source", PStr "Rainbow .azi");
             ("elevation_deg", PFloat (elevation_deg meta));
             ("r0_m", PFloat (r0_m meta));
             ("dr_m", PFloat (dr_m meta));
             ("radar_lon", PFloat radar_lon);
             ("radar_lat", PFloat radar_lat);
             ("radar_alt_m", PFloat radar_alt) ])).

Definition position_fields : list (string * string) :=
  [("@lon", "radar_lon"); ("@lat", "radar_lat"); ("@alt", "radar_alt_m")].

(** A position field that is absent, or whose value [float()] rejects. *)
Definition unusable (info : dict) (key : string) : Prop :=
  lookup key info = None \/
  exists v e, lookup key info = Some v /\ py_float v = Raise e.

(** The bin count [_get_data_and_axes] settles on: the first ray's [@bins]
    when the slice declares rays, else the trailing dimension. *)
Definition bin_count (slc : pyval) (data : ndarray) : result Z :=
  has_rays <- declares slc "rays" "ray" ;;
  if has_rays : bool then
    rays <- py_getitem slc "rays" ;;
    ray <- py_getitem rays "ray" ;;
    first <- py_getitem0 ray ;;
    _ <- py_get first "@bins" PNone ;;
    last <- shape_last data ;;
    bins <- py_get first "@bins" (PInt (Z.of_nat last)) ;;
    py_int bins
  else
    last <- shape_last data ;; Ok (Z.of_nat last).

Definition azimuths (slc : pyval) (data : ndarray) : result (list float) :=
  has_angles <- declares slc "angles" "a" ;;
  if has_angles : bool then
    angles <- py_getitem slc "angles" ;;
    az_list <- py_getitem angles "a" ;;
    items <- py_iter az_list ;;
    mapM py_float items
  else
    n_az <- shape_first data ;;
    Ok (linspace_open (Fin 0) (Fin 360) n_az).

(** The first ray of a slice that declares rays. *)
Definition first_ray (slc : pyval) : result pyval :=
  rays <- py_getitem slc "rays" ;;
  ray <- py_getitem rays "ray" ;;
  py_getitem0 ray.

End Extractor.

(** ** src/georef/polar.py *)

Fixpoint shape_eqb (a b : list nat) : bool :=
  match a, b with
  | [], [] => true
  | x :: a', y :: b' => Nat.eqb x y && shape_eqb a' b'
  | _, _ => false
  end.

Section Georef.

(** [np.deg2rad] on one element. *)
Variable deg2rad : float -> float.
Variable parse_float : string -> option float.

(** [np.meshgrid(xs, ys)]: two arrays of shape [(len ys, len xs)]. *)
Definition meshgrid (xs ys : list float) : ndarray * ndarray :=
  let sh := [length ys; length xs] in
  (mk_ndarray sh (concat (map (fun _ => xs) ys)),
   mk_ndarray sh (concat (map (fun y => repeat y (length xs)) ys))).

(** The call [georef.spherical_to_xyz(rr, aa, el)] of line 14.  wradlib
    declares the function as [spherical_to_xyz(r, phi, theta, site, ...)]
    and [site] has no default value, so Python rejects the call while it
    binds the three arguments, before any geometry is computed. *)
Definition msg_site : string :=
  "spherical_to_xyz() missing 1 required positional argument: 'site'".

Definition spherical_to_xyz (r phi : ndarray) (theta : float)
  : result (ndarray * ndarray * ndarray) :=
  Raise (TypeError msg_site).

Definition polar_to_xyz (ranges_m azimuth_deg : list float) (elev_deg : float)
  : result (ndarray * ndarray * ndarray) :=
  let '(rr, aa) := meshgrid ranges_m (map deg2rad azimuth_deg) in
  let el := deg2rad elev_deg in
  xyz <- spherical_to_xyz rr aa el ;;
  Ok xyz.

(** The attribute [georef.xyz_to_lonlatalt] of line 23: the [georef] module
    of wradlib has no function of that name, so the lookup itself raises. *)
Definition msg_lonlatalt : string :=
  "module 'wradlib.georef' has no attribute 'xyz_to_lonlatalt'".

Definition xyz_to_lonlat (x y z : ndarray) (radar_lon radar_lat radar_alt_m : float)
  : result (ndarray * ndarray * ndarray) :=
  Raise (AttributeError msg_lonlatalt).

(** [ds.assign_coords({name: (("azimuth", "range"), arr)})]: xarray checks
    the array against the sizes of the two dimensions. *)
Definition check_coord (ds : Dataset) (arr : ndarray) : result ndarray :=
  if shape_eqb (shape arr) [length (ds_azimuth ds); length (ds_range ds)]
  then Ok arr
  else Raise (ValueError "conflicting sizes for dimension").

(** [float(ds.attrs.get("elevation_deg", 0.0))] *)
Definition elevation_of (ds : Dataset) : result float :=
  py_float parse_float (dict_get (ds_attrs ds) "elevation_deg" (PFloat (Fin 0))).

Definition polar_dataset_to_lonlat (ds : Dataset)
           (radar_lon radar_lat radar_alt_m : float) : result Dataset :=
  elev <- elevation_of ds ;;
  let ranges := ds_range ds in
  let az := ds_azimuth ds in
  ' (x, y, z) <- polar_to_xyz ranges az elev ;;
  ' (lon, lat, alt) <- xyz_to_lonlat x y z radar_lon radar_lat radar_alt_m ;;
  lon' <- check_coord ds lon ;;
  lat' <- check_coord ds lat ;;
  alt' <- check_coord ds alt ;;
  Ok (mk_Dataset (ds_name ds) (ds_values ds) (ds_var_attrs ds)
        (ds_azimuth ds) (ds_range ds) (Some lon') (Some lat') (Some alt')
        (ds_attrs ds)).

End Georef.

(** ** src/georef/gridding.py *)

(** [np.nanmin] / [np.nanmax] over all elements: NaN entries are skipped
    (infinities are not); an all-NaN array gives NaN with a warning, an
    empty one raises. *)
Definition fmin (a b : float) : float :=
  match a, b with
  | NaN, _ => b
  | _, NaN => a
  | _, _ => if fle a b then a else b
  end.

Definition fmax (a b : float) : float :=
  match a, b with
  | NaN, _ => b
  | _, NaN => a
  | _, _ => if fle a b then b else a
  end.

Definition nanmin (l : list float) : result float :=
  match l with
  | [] => Raise (ValueError "zero-size array to reduction operation fmin which has no identity")
  | _ => Ok (fold_right fmin NaN l)
  end.

Definition nanmax (l : list float) : result float :=
  match l with
  | [] => Raise (ValueError "zero-size array to reduction operation fmax which has no identity")
  | _ => Ok (fold_right fmax NaN l)
  end.

(** *** float64 arithmetic

    How many points [np.arange] returns, and where they lie, depends on how
    float64 rounds.  In the gridding step every arithmetic result therefore
    goes through [f64], the rounding of an exact result to float64 (to an
    infinity when it overflows); infinities and NaN pass unchanged. *)

Section Float64.

Variable f64 : Q -> float.

Definition rnd (x : float) : float :=
  match x with Fin q => f64 q | _ => x end.

Definition radd (a b : float) : float := rnd (fadd a b).
Definition rsub (a b : float) : float := rnd (fsub a b).
Definition rmul (a b : float) : float := rnd (fmul a b).
Definition rdiv (a b : float) : float := rnd (fdiv a b).

(** The largest array length ([NPY_MAX_INTP]). *)
Definition max_intp : Z := 2 ^ 63 - 1.

(** Entry [i] of the array [np.arange] fills: the start, then
    [next = start + step], then [start + i * delta] for
    [delta = next - start]. *)
Definition arange_item (start next delta : float) (i : nat) : float :=
  match i with
  | O => start
  | S O => next
  | _ => radd start (rmul (rnd (of_nat i)) delta)
  end.

(** [np.arange(start, stop, step)] on float64 scalars: the length is
    [ceil((stop - start) / step)]; a quotient that is NaN is refused with
    [ValueError "arange: cannot compute length"], one that is infinite or
    exceeds [NPY_MAX_INTP] with [ValueError "Maximum allowed size exceeded"];
    a length that is zero or negative gives the empty array.  Memory is
    taken to be unbounded. *)
Definition arange (start stop step : float) : result (list float) :=
  match rdiv (rsub stop start) step with
  | NaN => Raise (ValueError "arange: cannot compute length")
  | PInf | NInf => Raise (ValueError "Maximum allowed size exceeded")
  | Fin q =>
      if (max_intp <? Qceiling q)%Z
      then Raise (ValueError "Maximum allowed size exceeded")
      else
        let next := radd start step in
        let delta := rsub next start in
        Ok (map (arange_item start next delta) (seq 0 (Z.to_nat (Qceiling q))))
  end.

End Float64.

(** Nearest-neighbour query ([cKDTree(pts).query(q, k=1)]): the index of a
    point at least Euclidean distance; among equidistant points this model
    takes the one of lowest index. *)
Definition dist2 (q p : float * float) : float :=
  let dx := fsub (fst p) (fst q) in
  let dy := fsub (snd p) (snd q) in
  fadd (fmul dx dx) (fmul dy dy).

Fixpoint argmin_from (best : nat) (best_d : float) (i : nat) (l : list float) : nat :=
  match l with
  | [] => best
  | d :: t =>
      if flt d best_d then argmin_from i d (S i) t
      else argmin_from best best_d (S i) t
  end.

Definition argmin (l : list float) : nat :=
  match l with
  | [] => O
  | d :: t => argmin_from O d 1%nat t
  end.

Definition query (pts : list (float * float)) (q : float * float) : nat :=
  argmin (map (dist2 q) pts).

Record GridDataset : Type := mk_GridDataset {
  g_name : pyval;
  g_values : ndarray;
  g_x : list float;
  g_y : list float;
  g_var_attrs : dict;
  g_attrs : dict
}.

Definition string_of_Z (z : Z) : string := NilZero.string_of_int (Z.to_int z).

Definition queries (xs ys : list float) : list (float * float) :=
  concat (map (fun y => map (fun x => (x, y)) xs) ys).

Section Gridding.

(** pyproj: whether [CRS.from_epsg] knows the code, and the transformer
    from EPSG:4326 applied to one (lon, lat) pair.  The transformer is
    called without [errcheck], so it does not raise. *)
Variable epsg_valid : Z -> bool.
Variable transform : Z -> float -> float -> float * float.
(** [astype(np.float32)] on one element. *)
Variable f32 : float -> float.
(** Rounding of an exact result to float64. *)
Variable f64 : Q -> float.

Definition get_coord (name : string) (c : option ndarray) : result ndarray :=
  match c with
  | Some a => Ok a
  | None => Raise (KeyError name)
  end.

Definition all_finite (s : float * (float * float)) : bool :=
  isfinite (fst s) && isfinite (fst (snd s)) && isfinite (snd (snd s)).

(** The cell value stored for one query point in the non-empty branch. *)
Definition cell (pts : list (float * float)) (vals : list float)
           (nodata : float) (q : float * float) : float :=
  let o := f32 (nth (query pts q) vals NaN) in
  if isfinite o then o else f32 nodata.

Definition grid_to_dataset (name : pyval) (out : ndarray) (xs ys : list float)
           (attrs : dict) : result GridDataset :=
  match name with
  | PNone => Raise (ValueError "unable to convert unnamed DataArray to a Dataset")
  | PDict _ | PList _ | PArr _ => Raise (TypeError "unhashable type")
  | nm =>
      if match nm with
         | PStr s => String.eqb s "x" || String.eqb s "y"
         | _ => false
         end
      then Raise (ValueError "cannot create a Dataset from a DataArray with the same name as one of its coordinates")
      else Ok (mk_GridDataset nm out xs ys attrs [])
  end.

Definition polar_to_grid_2d (ds_lonlat : Dataset) (epsg : Z)
           (dx dy buffer_m nodata : float) : result GridDataset :=
  let varname := ds_name ds_lonlat in
  let v := ds_values ds_lonlat in
  lon <- get_coord "lon" (ds_lon ds_lonlat) ;;
  lat <- get_coord "lat" (ds_lat ds_lonlat) ;;
  if negb (epsg_valid epsg) then Raise (CRSError epsg) else
  let XY := map (fun ll => transform epsg (fst ll) (snd ll))
                (combine (flat lon) (flat lat)) in
  let X := map fst XY in
  let Y := map snd XY in
  xmin <- nanmin X ;;
  let x0 := rsub f64 xmin buffer_m in
  xmax <- nanmax X ;;
  let x1 := radd f64 xmax buffer_m in
  ymin <- nanmin Y ;;
  let y0 := rsub f64 ymin buffer_m in
  ymax <- nanmax Y ;;
  let y1 := radd f64 ymax buffer_m in
  xs <- arange f64 x0 (radd f64 x1 dx) dx ;;
  ys <- arange f64 y0 (radd f64 y1 dy) dy ;;
  let samples := filter all_finite (combine (flat v) (combine X Y)) in
  let pts := map snd samples in
  let vals := map fst samples in
  let out :=
    match pts with
    | [] => repeat (f32 nodata) (length ys * length xs)
    | _ =>
        map (cell pts vals nodata)
            (concat (map (fun y => map (fun x => (x, y)) xs) ys))
    end in
  let attrs := [("units", dict_get (ds_var_attrs ds_lonlat) "units" (PStr ""))] in
  g <- grid_to_dataset varname (mk_ndarray [length ys; length xs] out) xs ys attrs ;;
  Ok (mk_GridDataset (g_name g) (g_values g) (g_x g) (g_y g) (g_var_attrs g)
        (dict_update (g_attrs g)
           [ ("crs", PStr ("EPSG:" ++ string_of_Z epsg));
             ("method", PStr "nearest (K=1)");
             ("nodata", PFloat nodata) ])).

(** Projected coordinates of all samples, and the candidate samples (value
    and both coordinates finite) in row-major order. *)
Definition projected (epsg : Z) (lon lat : ndarray) : list (float * float) :=
  map (fun ll => transform epsg (fst ll) (snd ll)) (combine (flat lon) (flat lat)).

Definition candidates (v : ndarray) (XY : list (float * float))
  : list (float * (float * float)) :=
  filter all_finite (combine (flat v) (combine (map fst XY) (map snd XY))).

Definition grid_cells (cands : list (float * (float * float)))
           (nodata : float) (xs ys : list float) : list float :=
  match map snd cands with
  | [] => repeat (f32 nodata) (length ys * length xs)
  | _ => map (cell (map snd cands) (map fst cands) nodata) (queries xs ys)
  end.

(** Names [to_dataset] accepts for a grid variable. *)
Definition grid_name_ok (nm : pyval) : bool :=
  match nm with
  | PNone | PDict _ | PList _ | PArr _ => false
  | PStr s => negb (String.eqb s "x" || String.eqb s "y")
  | _ => true
  end.

End Gridding.

(** ** scripts/parse_azi.py

    The script after its arguments are parsed and its YAML configuration
    is loaded.  Writing a file is recorded as an [NcFile] (what
    [ds.to_netcdf] is handed); creating directories and printing are left
    out. *)

(** [d.setdefault(k, v)] *)
Definition setdefault (d : dict) (k : string) (v : pyval) : dict :=
  if dict_mem k d then d else d ++ [(k, v)].

(** Element types of coordinate arrays, as far as [np.issubdtype(_,
    np.floating)] tells them apart. *)
Inductive dtype : Type :=
| Float16 | Float32 | Float64
| Int32 | Int64 | Bool8 | Datetime64 | Object.

Definition is_floating (d : dtype) : bool :=
  match d with
  | Float16 | Float32 | Float64 => true
  | _ => false
  end.

(** What [save_netcdf] can be handed: the polar dataset, the grid, or any
    other [xr.Dataset], given by its data variables, its coordinates with
    their element types, and its attributes. *)
Inductive nc_content : Type :=
| NcPolar (ds : Dataset)
| NcGrid (g : GridDataset)
| NcOther (vars : list pyval) (coords : list (string * dtype)) (attrs : dict).

Definition content_attrs (c : nc_content) : dict :=
  match c with
  | NcPolar ds => ds_attrs ds
  | NcGrid g => g_attrs g
  | NcOther _ _ a => a
  end.

(** [ds.assign_attrs(gattrs)] for a [gattrs] grown from a copy of the
    dataset's own attributes: the result carries exactly [gattrs]. *)
Definition assign_attrs (c : nc_content) (a : dict) : nc_content :=
  match c with
  | NcPolar ds => NcPolar (set_attrs ds a)
  | NcGrid g =>
      NcGrid (mk_GridDataset (g_name g) (g_values g) (g_x g) (g_y g)
                (g_var_attrs g) a)
  | NcOther vs cs _ => NcOther vs cs a
  end.

(** [ds.data_vars] and [ds.coords], in order. *)
Definition content_vars (c : nc_content) : list pyval :=
  match c with
  | NcPolar ds => [ds_name ds]
  | NcGrid g => [g_name g]
  | NcOther vs _ _ => vs
  end.

Definition opt_name {A} (o : option A) (n : string) : list string :=
  match o with Some _ => [n] | None => [] end.

Definition content_coords (c : nc_content) : list string :=
  match c with
  | NcPolar ds =>
      ["azimuth"; "range"] ++ opt_name (ds_lon ds) "lon"
        ++ opt_name (ds_lat ds) "lat" ++ opt_name (ds_alt ds) "alt"
  | NcGrid g => ["x"; "y"]
  | NcOther _ cs _ => map fst cs
  end.

Fixpoint dtype_of (k : string) (cs : list (string * dtype)) : dtype :=
  match cs with
  | [] => Object
  | (k', d) :: t => if String.eqb k k' then d else dtype_of k t
  end.

(** [ds[c].dtype]: the axes and auxiliary coordinates of the polar dataset
    and the axes of the grid are float64 arrays. *)
Definition coord_dtype (c : nc_content) (k : string) : dtype :=
  match c with
  | NcPolar _ | NcGrid _ => Float64
  | NcOther _ cs _ => dtype_of k cs
  end.

Record NcFile : Type := mk_NcFile {
  nc_name : string;            (* file name under data/processed *)
  nc_data : nc_content;
  nc_encoding : list (pyval * dict)
}.

Record Args : Type := mk_Args {
  a_file : string;
  a_out_prefix : string;
  a_nc_polar : bool;
  a_nc_grid : bool
}.

Definition global_attrs (attrs : dict) : dict :=
  let g := attrs in
  let g := setdefault g "Conventions" (PStr "CF-1.8") in
  let g := setdefault g "title" (PStr "CAXX radar product") in
  let g := setdefault g "institution"
             (PStr "ETAPA EP - Departamento de Investigación y Monitoreo") in
  let g := setdefault g "source"
             (dict_get g "source" (PStr "Rainbow .azi via wradlib")) in
  setdefault g "history" (PStr "Created by caxx-radar/scripts/parse_azi.py").

(** The keys [save_netcdf] fills in when the dataset lacks them. *)
Definition default_attr_keys : list string :=
  ["Conventions"; "title"; "institution"; "source"; "history"].

Section Script.

Variable parse_float : string -> option float.
Variable parse_int : string -> option Z.
Variable asarray_other : pyval -> ndarray.
Variable suffix_lower : string -> string.
Variable read_rainbow : string -> result pyval.
Variable deg2rad : float -> float.
Variable epsg_valid : Z -> bool.
Variable transform : Z -> float -> float -> float * float.
Variable f32 : float -> float.
Variable f64 : Q -> float.

(** The encoding of a data variable: float32, with a fill value when
    [nodata] is given. *)
Definition var_encoding (nodata : option float) : dict :=
  ("dtype", PStr "float32") ::
  match nodata with
  | Some nd => [("_FillValue", PFloat (f32 nd))]
  | None => []
  end.

(** The encoding of a coordinate: float32 for a floating-point array and
    nothing for any other. *)
Definition coord_encoding (d : dtype) : dict :=
  if is_floating d then [("dtype", PStr "float32")] else [].

Definition save_netcdf (c : nc_content) (name : string) (nodata : option float)
  : NcFile :=
  let encoding :=
    map (fun v => (v, var_encoding nodata)) (content_vars c)
    ++ map (fun k => (PStr k, coord_encoding (coord_dtype c k)))
           (content_coords c) in
  let gattrs := global_attrs (content_attrs c) in
  mk_NcFile name (assign_attrs c gattrs) encoding.

(** [cfg[a][b]] *)
Definition cfg2 (cfg : pyval) (a b : string) : result pyval :=
  sec <- py_getitem cfg a ;; py_getitem sec b.

(** Lines 72-93 of [main]: georeference, grid, and complete the attributes
    of the grid. *)
Definition grid_stage (ds_polar : Dataset) (cfg : pyval)
  : result (GridDataset * float) :=
  c_lon <- cfg2 cfg "radar" "lon" ;;
  radar_lon <- py_float parse_float (dict_get (ds_attrs ds_polar) "radar_lon" c_lon) ;;
  c_lat <- cfg2 cfg "radar" "lat" ;;
  radar_lat <- py_float parse_float (dict_get (ds_attrs ds_polar) "radar_lat" c_lat) ;;
  c_alt <- cfg2 cfg "radar" "alt_m" ;;
  radar_alt <- py_float parse_float (dict_get (ds_attrs ds_polar) "radar_alt_m" c_alt) ;;
  ds_ll <- polar_dataset_to_lonlat deg2rad parse_float ds_polar
             radar_lon radar_lat radar_alt ;;
  c_epsg <- cfg2 cfg "projection" "epsg" ;;
  epsg <- py_int parse_int c_epsg ;;
  c_dx <- cfg2 cfg "grid" "dx" ;;
  dx <- py_float parse_float c_dx ;;
  c_dy <- cfg2 cfg "grid" "dy" ;;
  dy <- py_float parse_float c_dy ;;
  c_buf <- cfg2 cfg "grid" "buffer_m" ;;
  buffer_m <- py_float parse_float c_buf ;;
  c_nd <- cfg2 cfg "io" "nodata" ;;
  nodata <- py_float parse_float c_nd ;;
  ds_grid <- polar_to_grid_2d epsg_valid transform f32 f64 ds_ll epsg dx dy
               buffer_m nodata ;;
  Ok (mk_GridDataset (g_name ds_grid) (g_values ds_grid) (g_x ds_grid)
        (g_y ds_grid) (g_var_attrs ds_grid)
        (dict_update (g_attrs ds_grid)
           [ ("grid_mapping", PStr ("EPSG:" ++ string_of_Z epsg));
             ("dx", PFloat dx); ("dy", PFloat dy);
             ("method", dict_get (g_attrs ds_grid) "method" (PStr "nearest (K=1)")) ]),
      nodata).

(** [main]: the files written, in order, and how the run ended. *)
Definition main (args : Args) (cfg : pyval) : list NcFile * result unit :=
  match read_azi parse_float parse_int asarray_other suffix_lower read_rainbow
          (a_file args) with
  | Raise e => ([], Raise e)
  | Ok ds_polar =>
      let written :=
        if a_nc_polar args
        then [save_netcdf (NcPolar ds_polar) (a_out_prefix args ++ "_polar.nc") None]
        else [] in
      if a_nc_grid args then
        match grid_stage ds_polar cfg with
        | Raise e => (written, Raise e)
        | Ok (ds_grid, nodata) =>
            (written ++
               [save_netcdf (NcGrid ds_grid) (a_out_prefix args ++ "_grid.nc")
                  (Some nodata)],
             Ok tt)
        end
      else (written, Ok tt)
  end.

End Script.

(** ** Predicates used in the statements *)

Definition is_ok {A} (r : result A) : Prop := exists a, r = Ok a.

(** The angle [linspace] puts at position [i]. *)
Definition az_at (i n : nat) : Q :=
  inject_Z (Z.of_nat i) * ((360 + - 0) / inject_Z (Z.of_nat n)) + 0.

Definition expected_keys : list string := ["volume"; "scan"; "slice"; "data"].

(** The message of the structural error raised for a missing key. *)
Definition msg_for (key : string) : string :=
  if String.eqb key "volume" then msg_volume
  else if String.eqb key "scan" then msg_scan
  else if String.eqb key "slice" then msg_slice
  else msg_data.

Definition is_malformed (e : exn) : bool :=
  match e with
  | ValueError m => existsb (fun k => String.eqb m (msg_for k)) expected_keys
  | _ => false
  end.

(** [Missing tree key], the condition under which the code raises the
    structural error for [key]: walking volume, scan, slice from the root
    through dicts, [key] is the first one that [.get] does not find (it is
    absent or bound to [None]), or the walk reaches a slice among whose keys
    (or items) ['data'] is not. *)
Inductive Missing : pyval -> string -> Prop :=
| Missing_volume t :
    dict_get t "volume" PNone = PNone ->
    Missing (PDict t) "volume"
| Missing_scan t v :
    dict_get t "volume" PNone = PDict v ->
    dict_get v "scan" PNone = PNone ->
    Missing (PDict t) "scan"
| Missing_slice t v sc :
    dict_get t "volume" PNone = PDict v ->
    dict_get v "scan" PNone = PDict sc ->
    dict_get sc "slice" PNone = PNone ->
    Missing (PDict t) "slice"
| Missing_data t v sc slc :
    dict_get t "volume" PNone = PDict v ->
    dict_get v "scan" PNone = PDict sc ->
    dict_get sc "slice" PNone = slc ->
    slc <> PNone ->
    py_in "data" slc = Ok false ->
    Missing (PDict t) "data".

(** The claim's wording of a missing key: following [path] from [v] through
    nested dicts, some key is not found. *)
Fixpoint walk (v : pyval) (path : list string) : option pyval :=
  match path with
  | [] => Some v
  | k :: rest =>
      match v with
      | PDict d =>
          match lookup k d with
          | Some x => walk x rest
          | None => None
          end
      | _ => None
      end
  end.

Definition key_absent_on_path (tree : pyval) : Prop :=
  walk tree ["volume"; "scan"; "slice"] = None.

(** A computation none of whose exceptions is a structural error. *)
Definition clean {A} (r : result A) : Prop :=
  forall e, r = Raise e -> is_malformed e = false.

Definition fin_or_nan (l : list float) : Prop :=
  forall x, In x l -> isfinite x = true \/ x = NaN.

Definition is_crs (e : exn) : bool :=
  match e with CRSError _ => true | _ => false end.

(** A computation that raises no projection error. *)
Definition crs_free {A} (r : result A) : Prop :=
  forall e, r = Raise e -> is_crs e = false.

(** [l] is what [np.arange(start, stop, step)] fills in float64:
    [ceil((stop - start) / step)] entries, the first [start], the second
    [start + step], entry [i] from the third on [start + i * delta] for
    [delta = (start + step) - start]. *)
Definition np_axis (f64 : Q -> float) (l : list float)
           (start stop step : float) : Prop :=
  exists q,
    rdiv f64 (rsub f64 stop start) step = Fin q /\
    (Qceiling q <= 2 ^ 63 - 1)%Z /\
    length l = Z.to_nat (Qceiling q) /\
    forall i, (i < length l)%nat ->
      nth i l NaN =
        match i with
        | O => start
        | S O => radd f64 start step
        | _ => radd f64 start
                 (rmul f64 (rnd f64 (of_nat i))
                    (rsub f64 (radd f64 start step) start))
        end.

(** [lo] and [hi] bound the finite entries of [l] and are attained. *)
Definition extent (l : list float) (lo hi : Q) : Prop :=
  In (Fin lo) l /\ In (Fin hi) l /\
  forall q, In (Fin q) l -> lo <= q /\ q <= hi.

(** The two ways [np.arange] refuses a length: [r] is one of its errors. *)
Definition arange_refuses {A} (r : result A) : Prop :=
  r = Raise (ValueError "arange: cannot compute length") \/
  r = Raise (ValueError "Maximum allowed size exceeded").

(** ** Concrete stand-ins for the external functions

    Used to run the embedding on examples. *)

Fixpoint digits_val (s : string) (acc : Z) : option Z :=
  match s with
  | EmptyString => Some acc
  | String c t =>
      let n := Z.of_nat (Ascii.nat_of_ascii c) in
      if ((48 <=? n) && (n <=? 57))%Z
      then digits_val t (10 * acc + (n - 48))%Z
      else None
  end.

(** Unsigned decimal integers only. *)
Definition parse_uint (s : string) : option Z :=
  match s with
  | EmptyString => None
  | _ => digits_val s 0%Z
  end.

Definition parse_ufloat (s : string) : option float :=
  match parse_uint s with
  | Some z => Some (of_Z z)
  | None => if String.eqb s "nan" then Some NaN else None
  end.

Definition last4 (p : string) : string :=
  substring (String.length p - 4) 4 p.

Definition asarray_obj (v : pyval) : ndarray := mk_ndarray [] [NaN].

(** A planar stand-in for a projection: degrees scaled to metres; a
    coordinate that is not finite or lies outside [-180,180] x [-90,90]
    comes back as infinity, as pyproj does without [errcheck]. *)
Definition in_range (lo hi : Q) (f : float) : bool :=
  match f with
  | Fin q => Qle_bool lo q && Qle_bool q hi
  | _ => false
  end.

Definition plane_transform (epsg : Z) (lon lat : float) : float * float :=
  if in_range (-180) 180 lon && in_range (-90) 90 lat
  then (fmul lon (Fin 100000), fmul lat (Fin 100000))
  else (PInf, PInf).

Definition only_utm17s (epsg : Z) : bool := Z.eqb epsg 32717.

(** A stand-in for the float32 cast that ignores rounding: a value of
    magnitude at most 2^128 is kept, a larger one overflows to an infinity. *)
Definition f32_overflow (f : float) : float :=
  match f with
  | Fin q =>
      if Qle_bool (Qabs q) (inject_Z (2 ^ 128)) then Fin q
      else if Qle_bool 0 q then PInf else NInf
  | _ => f
  end.

(** Rounding to float64 (IEEE 754 binary64, round to nearest, ties to
    even): 53 significant bits, exponents from -1022 (below which the
    spacing stays [2^-1074]) to 1023, infinity from [2^1024] on. *)
Definition round_half_even (x : Q) : Z :=
  let f := Qfloor x in
  match Qcompare (x - inject_Z f) (1 # 2) with
  | Lt => f
  | Gt => (f + 1)%Z
  | Eq => if Z.even f then f else (f + 1)%Z
  end.

(** [floor(log2 a)] for a positive [a]. *)
Definition ilog2 (a : Q) : Z :=
  let k := (Z.log2 (Qnum a) - Z.log2 (Zpos (Qden a)))%Z in
  if Qle_bool (Qpower 2 k) a then k else (k - 1)%Z.

Definition round64 (q : Q) : float :=
  match Qcompare q 0 with
  | Eq => Fin 0
  | c =>
      let a := Qabs q in
      let e := Z.max (ilog2 a) (-1022) in
      let ulp := Qpower 2 (e - 52) in
      let r := inject_Z (round_half_even (a / ulp)) * ulp in
      if Qle_bool (Qpower 2 1024) r
      then match c with Lt => NInf | _ => PInf end
      else Fin (Qred (match c with Lt => - r | _ => r end))
  end.

(** A two-bin sweep: one ray at azimuth 0, bins at 0 m and 1000 m, already
    georeferenced around a radar at (0, 0). *)
Definition scan_of (values lon lat : list float) : Dataset :=
  mk_Dataset (PStr "dBZ") (mk_ndarray [1; 2]%nat values)
    [("units", PStr "dBZ")] [Fin 0] [Fin 0; Fin 1000]
    (Some (mk_ndarray [1; 2]%nat lon)) (Some (mk_ndarray [1; 2]%nat lat))
    (Some (mk_ndarray [1; 2]%nat [Fin 0; Fin 0]))
    [("elevation_deg", PFloat (Fin 0))].

Definition demo_scan : Dataset :=
  scan_of [Fin 10; Fin 20] [Fin 0; Fin (1 # 100)] [Fin 0; Fin 0].

(** The same sweep with its second bin at longitude 200, outside the
    domain of the projection. *)
Definition demo_outside : Dataset :=
  scan_of [Fin 10; Fin 20] [Fin 0; Fin 200] [Fin 0; Fin 0].

(** The same sweep around a radar of unknown position: every lon/lat is NaN. *)
Definition demo_unlocated : Dataset :=
  scan_of [Fin 10; Fin 20] [NaN; NaN] [NaN; NaN].

(** The same sweep with no valid return. *)
Definition demo_silent : Dataset :=
  scan_of [NaN; PInf] [Fin 0; Fin (1 # 100)] [Fin 0; Fin 0].

Definition demo_grid :=
  polar_to_grid_2d only_utm17s plane_transform f32_overflow round64.

(** The same sweep with a single valid return. *)
Definition demo_single : Dataset :=
  scan_of [Fin 10; NaN] [Fin 0; Fin (1 # 100)] [Fin 0; Fin 0].

Definition nodata0 : float := Fin (-9999).

Definition empty_grid : GridDataset :=
  mk_GridDataset PNone (mk_ndarray [] []) [] [] [] [].

Definition grid_or_empty (r : result GridDataset) : GridDataset :=
  match r with Ok g => g | Raise _ => empty_grid end.

Definition demo_single_grid : GridDataset :=
  Eval vm_compute in
    grid_or_empty (demo_grid demo_single 32717 (Fin 500) (Fin 500) (Fin 1000) nodata0).

(** A decoded tree: two rays of three bins, the first ray declaring its bin
    count, a start range given as text, no angle list, and a sensor block
    whose longitude is not a number and whose altitude is missing. *)
Definition demo_slice : dict :=
  [ ("data", PArr (mk_ndarray [2; 3]%nat
                     [Fin 10; Fin 11; Fin 12; Fin 20; Fin 21; Fin 22]));
    ("@rstart", PStr "500");
    ("rays", PDict [("ray", PList [PDict [("@bins", PStr "3")]; PDict []])]) ].

Definition demo_volume : dict :=
  [ ("sensorinfo", PDict [("@lon", PStr "west"); ("@lat", PStr "3")]);
    ("scan", PDict [("slice", PDict demo_slice)]) ].

Definition demo_tree : dict := [("volume", PDict demo_volume)].

Definition demo_read (path : string) : result pyval := Ok (PDict demo_tree).

Definition demo_read_azi : string -> result Dataset :=
  read_azi parse_ufloat parse_uint asarray_obj last4 demo_read.

Definition demo_axes :=
  _get_data_and_axes parse_ufloat parse_uint asarray_obj.

Definition demo_meta : Meta := mk_Meta (Fin 0) (Fin 500) (Fin 1000).

Definition demo_extracted : ndarray * list float * list float * Meta :=
  (mk_ndarray [2; 3]%nat [Fin 10; Fin 11; Fin 12; Fin 20; Fin 21; Fin 22],
   [Fin (0 # 2); Fin (360 # 2)],
   [Fin 500; Fin 1500; Fin 2500],
   demo_meta).

Definition empty_dataset : Dataset :=
  mk_Dataset PNone (mk_ndarray [] []) [] [] [] None None None [].

Definition demo_polar : Dataset :=
  Eval vm_compute in
    match demo_read_azi "sweep.azi" with
    | Ok ds => ds
    | Raise _ => empty_dataset
    end.

(** A tree whose scan has no slice. *)
Definition tree_no_slice : pyval :=
  PDict [("volume", PDict [("scan", PDict [("pargroup", PStr "x")])])].

(** A polar dataset without the elevation attribute. *)
Definition polar_no_elev : Dataset := set_attrs demo_polar [].

(** Further demonstration inputs. *)

(** A slice whose start range is NaN. *)
Definition slice_nan_start : dict :=
  [ ("data", PArr (mk_ndarray [1; 2]%nat [Fin 10; Fin 11]));
    ("@rstart", PStr "nan") ].

Definition dummy_extracted : ndarray * list float * list float * Meta :=
  (mk_ndarray [] [], [], [], mk_Meta NaN NaN NaN).

Definition extracted_nan_start : ndarray * list float * list float * Meta :=
  Eval vm_compute in
    match demo_axes (PDict slice_nan_start) with
    | Ok r => r
    | Raise _ => dummy_extracted
    end.

(** A slice whose elevation is not a number. *)
Definition slice_bad_elevation : dict :=
  [ ("data", PArr (mk_ndarray [1; 2]%nat [Fin 10; Fin 11]));
    ("@elevation", PStr "high") ].

(** A slice whose first ray declares five bins for three columns of data. *)
Definition slice_five_bins : dict :=
  [ ("data", PArr (mk_ndarray [2; 3]%nat
                     [Fin 10; Fin 11; Fin 12; Fin 20; Fin 21; Fin 22]));
    ("rays", PDict [("ray", PList [PDict [("@bins", PStr "5")]])]) ].

Definition tree_five_bins : pyval :=
  PDict [("volume", PDict [("scan", PDict [("slice", PDict slice_five_bins)])])].

Definition extracted_five_bins : ndarray * list float * list float * Meta :=
  Eval vm_compute in
    match demo_axes (PDict slice_five_bins) with
    | Ok r => r
    | Raise _ => dummy_extracted
    end.

Definition demo_scan_grid : GridDataset :=
  Eval vm_compute in
    grid_or_empty (demo_grid demo_scan 32717 (Fin 500) (Fin 500) (Fin 1000) nodata0).

(** The demonstration tree with a usable sensor position. *)
Definition tree_located : dict :=
  [("volume",
    PDict [ ("sensorinfo",
             PDict [("@lon", PStr "0"); ("@lat", PStr "3"); ("@alt", PStr "0")]);
            ("scan", PDict [("slice", PDict demo_slice)]) ])].

(** A configuration as [yaml.safe_load] returns it. *)
Definition demo_cfg_body : dict :=
  [ ("radar", PDict [("lon", PFloat (Fin (-79))); ("lat", PFloat (Fin (-3)));
                     ("alt_m", PInt 4450)]);
    ("projection", PDict [("epsg", PInt 32717)]);
    ("grid", PDict [("dx", PInt 500); ("dy", PInt 500); ("buffer_m", PInt 1000)]);
    ("io", PDict [("nodata", PInt (-9999))]) ].

Definition demo_args : Args := mk_Args "sweep.azi" "caxx" true true.

Definition demo_main (tree : dict) : Args -> pyval -> list NcFile * result unit :=
  main parse_ufloat parse_uint asarray_obj last4 (fun _ => Ok (PDict tree))
    (fun x => x) only_utm17s plane_transform f32_overflow round64.

Definition demo_polar_located : Dataset :=
  Eval vm_compute in
    match read_azi parse_ufloat parse_uint asarray_obj last4
            (fun _ => Ok (PDict tree_located)) "sweep.azi" with
    | Ok ds => ds
    | Raise _ => empty_dataset
    end.

(** A tree whose [volume] is a list, and one whose slice binds [data] to
    [None]. *)
Definition tree_list_volume : pyval := PDict [("volume", PList [])].

Definition tree_data_none : pyval :=
  PDict [("volume",
          PDict [("scan", PDict [("slice", PDict [("data", PNone)])])])].

(** The two-bin sweep with its second bin projected to
    [x = 1000 + 2^-43], the float64 next above 1000. *)
Definition demo_ulp : Dataset :=
  scan_of [Fin 10; Fin 20]
    [Fin 0; Fin (8796093022208001 # 879609302220800000)] [Fin 0; Fin 0].

(** A one-bin sweep projected to [x = 261870.6773146394] (as float64). *)
Definition demo_offgrid : Dataset :=
  mk_Dataset (PStr "dBZ") (mk_ndarray [1; 1]%nat [Fin 10])
    [("units", PStr "dBZ")] [Fin 0] [Fin 0]
    (Some (mk_ndarray [1; 1]%nat [Fin (8997807958781963 # 3435973836800000)]))
    (Some (mk_ndarray [1; 1]%nat [Fin 0]))
    (Some (mk_ndarray [1; 1]%nat [Fin 0]))
    [("elevation_deg", PFloat (Fin 0))].

(** Another dataset as [save_netcdf] may be handed one: a variable over a
    float64 axis and an integer axis. *)
Definition demo_other : nc_content :=
  NcOther [PStr "rain"] [("time", Int64); ("height", Float64)] [].

Definition demo_offgrid_grid : GridDataset :=
  Eval vm_compute in
    grid_or_empty (demo_grid demo_offgrid 32717 (Fin 500) (Fin 500) (Fin 1000) nodata0).

Definition demo_silent_grid : GridDataset :=
  Eval vm_compute in
    grid_or_empty (demo_grid demo_silent 32717 (Fin 500) (Fin 500) (Fin 1000) nodata0).

Definition demo_ulp_grid : GridDataset :=
  Eval vm_compute in
    grid_or_empty (demo_grid demo_ulp 32717 (Fin 500) (Fin 500) (Fin 1000) nodata0).

(** * Properties *)

Lemma bind_Ok_inv {A B} (r : result A) (k : A -> result B) (b : B) :
  bind r k = Ok b -> exists a, r = Ok a /\ k a = Ok b.
Proof.
  destruct r as [a|e]; simpl; intro H.
  - exists a; auto.
  - discriminate.
Qed.

Lemma bind_Raise_inv {A B} (r : result A) (k : A -> result B) (e : exn) :
  bind r k = Raise e -> r = Raise e \/ exists a, r = Ok a /\ k a = Raise e.
Proof.
  destruct r as [a|e']; simpl; intro H.
  - right; exists a; auto.
  - left; inversion H; reflexivity.
Qed.

Ltac inv_ok H :=
  let a := fresh "a" in
  let Ha := fresh "Ha" in
  apply bind_Ok_inv in H; destruct H as [a [Ha H]].

(** [py_get] succeeds exactly on dicts. *)
Lemma py_get_Ok v k dflt x :
  py_get v k dflt = Ok x -> exists d, v = PDict d /\ x = dict_get d k dflt.
Proof.
  destruct v; simpl; intro H; try discriminate.
  inversion H; subst. eexists; split; reflexivity.
Qed.

Lemma xr_DataArray_Ok data az rng name attrs da :
  xr_DataArray data az rng name attrs = Ok da ->
  shape data = [length az; length rng] /\
  da = mk_DataArray name data attrs az rng.
Proof.
  unfold xr_DataArray.
  destruct (shape data) as [|n [|m [|? ?]]]; try discriminate.
  destruct (Nat.eqb n (length az)) eqn:E1; simpl; try discriminate.
  destruct (Nat.eqb m (length rng)) eqn:E2; simpl; try discriminate.
  apply Nat.eqb_eq in E1, E2. intro H; inversion H; subst. auto.
Qed.

Lemma to_dataset_Ok da ds :
  to_dataset da = Ok ds ->
  ds = mk_Dataset (da_name da) (da_values da) (da_attrs da)
         (da_azimuth da) (da_range da) None None None [].
Proof.
  unfold to_dataset.
  destruct (da_name da) as [| | |s| | |]; try discriminate;
    try (intro H; inversion H; reflexivity).
  destruct (String.eqb s "azimuth" || String.eqb s "range"); try discriminate.
  intro H; inversion H; reflexivity.
Qed.

Lemma fmul_comm a b : fmul a b = fmul b a.
Proof.
  destruct a as [x| | |], b as [y| | |]; simpl; try reflexivity.
  unfold Qmult. rewrite Z.mul_comm, Pos.mul_comm. reflexivity.
Qed.

Lemma nth_arange_n n i :
  (i < Z.to_nat n)%nat -> nth i (arange_n n) NaN = of_nat i.
Proof.
  intro Hi. unfold arange_n.
  rewrite (nth_indep _ NaN (of_nat 0)) by (rewrite length_map, length_seq; exact Hi).
  rewrite map_nth, seq_nth by exact Hi. reflexivity.
Qed.

Lemma length_arange_n n : length (arange_n n) = Z.to_nat n.
Proof. unfold arange_n. rewrite length_map, length_seq. reflexivity. Qed.

Lemma inject_nat_pos (n : nat) : (0 < n)%nat -> 0 < inject_Z (Z.of_nat n).
Proof.
  intro H. change 0 with (inject_Z 0). rewrite <- Zlt_Qlt. lia.
Qed.

Lemma az_at_bound (i n : nat) :
  (i < n)%nat ->
  az_at i n == inject_Z (Z.of_nat i) * (360 / inject_Z (Z.of_nat n)) /\
  0 <= az_at i n /\ az_at i n < 360.
Proof.
  intros H. unfold az_at.
  assert (Hn : 0 < inject_Z (Z.of_nat n)) by (apply inject_nat_pos; lia).
  assert (Hi : 0 <= inject_Z (Z.of_nat i)).
  { change 0 with (inject_Z 0). rewrite <- Zle_Qle. lia. }
  assert (Hin : inject_Z (Z.of_nat i) < inject_Z (Z.of_nat n)).
  { rewrite <- Zlt_Qlt. lia. }
  assert (E : inject_Z (Z.of_nat i) * ((360 + - 0) / inject_Z (Z.of_nat n)) + 0
              == inject_Z (Z.of_nat i) * (360 / inject_Z (Z.of_nat n))).
  { field. intro E. rewrite E in Hn. discriminate. }
  split; [exact E|]. rewrite E.
  set (a := inject_Z (Z.of_nat i)) in *. set (b := inject_Z (Z.of_nat n)) in *.
  split.
  - apply Qmult_le_0_compat; [exact Hi|]. apply Qle_shift_div_l; [exact Hn|].
    rewrite Qmult_0_l. discriminate.
  - assert (E2 : a * (360 / b) == (360 * a) / b)
      by (field; intro E0; rewrite E0 in Hn; discriminate).
    rewrite E2. apply Qlt_shift_div_r; [exact Hn|].
    apply Qmult_lt_l; [reflexivity| exact Hin].
Qed.

Lemma az_at_spacing (i n : nat) :
  (0 < n)%nat -> az_at (S i) n - az_at i n == 360 / inject_Z (Z.of_nat n).
Proof.
  intro H. unfold az_at. rewrite Nat2Z.inj_succ. unfold Z.succ.
  rewrite inject_Z_plus.
  assert (Hn : 0 < inject_Z (Z.of_nat n)) by (apply inject_nat_pos; lia).
  field. intro E. rewrite E in Hn. discriminate.
Qed.

Lemma linspace_length a b n : length (linspace_open a b n) = n.
Proof. unfold linspace_open. rewrite length_map, length_seq. reflexivity. Qed.

Lemma linspace_nth (i n : nat) :
  (i < n)%nat ->
  nth i (linspace_open (Fin 0) (Fin 360) n) NaN = Fin (az_at i n).
Proof.
  intro H. unfold linspace_open.
  set (f := fun i : nat => _).
  rewrite (nth_indep _ NaN (f O)) by (rewrite length_map, length_seq; exact H).
  rewrite map_nth, seq_nth by exact H. subst f. simpl Nat.add.
  destruct n as [|m]; [lia|].
  assert (Hn : 0 < inject_Z (Z.of_nat (S m))) by (apply inject_nat_pos; lia).
  assert (Hs : qsign (inject_Z (Z.of_nat (S m))) = Gt).
  { unfold qsign. apply Qgt_alt. exact Hn. }
  unfold fsub, fneg, fadd at 2, fdiv, of_nat, of_Z. rewrite Hs.
  assert (Hz : fzero (Fin ((360 + - 0) / inject_Z (Z.of_nat (S m)))) = false).
  { unfold fzero. destruct (Qeq_bool _ 0) eqn:E; [|reflexivity].
    apply Qeq_bool_eq in E.
    assert (0 < (360 + - 0) / inject_Z (Z.of_nat (S m))).
    { apply Qlt_shift_div_l; [exact Hn | reflexivity]. }
    rewrite E in H0. discriminate. }
  rewrite Hz. reflexivity.
Qed.

(** *** Structural errors of the extractor *)

Lemma clean_Ok {A} (a : A) : clean (Ok a).
Proof. intros e H; discriminate. Qed.

Lemma clean_bind {A B} (r : result A) (k : A -> result B) :
  clean r -> (forall a, r = Ok a -> clean (k a)) -> clean (bind r k).
Proof.
  intros Hr Hk e H. apply bind_Raise_inv in H.
  destruct H as [H | [a [Ha H]]].
  - apply Hr; exact H.
  - apply (Hk a Ha); exact H.
Qed.

Ltac clean_prim :=
  let e := fresh "e" in
  let H := fresh "H" in
  intros e H;
  repeat match type of H with
         | context [match ?x with _ => _ end] => destruct x; try discriminate
         end;
  try discriminate; inversion H; reflexivity.

Lemma clean_py_in k v : clean (py_in k v).
Proof. unfold py_in. clean_prim. Qed.

Lemma clean_py_getitem v k : clean (py_getitem v k).
Proof. unfold py_getitem. clean_prim. Qed.

Lemma clean_py_getitem0 v : clean (py_getitem0 v).
Proof. unfold py_getitem0. clean_prim. Qed.

Lemma clean_py_get v k d : clean (py_get v k d).
Proof. unfold py_get. clean_prim. Qed.

Lemma clean_py_iter v : clean (py_iter v).
Proof. unfold py_iter. clean_prim. Qed.

Lemma clean_shape_last a : clean (shape_last a).
Proof. unfold shape_last. clean_prim. Qed.

Lemma clean_shape_first a : clean (shape_first a).
Proof. unfold shape_first. clean_prim. Qed.

Lemma clean_xr_DataArray data az rng name attrs :
  clean (xr_DataArray data az rng name attrs).
Proof. unfold xr_DataArray. clean_prim. Qed.

Lemma clean_to_dataset da : clean (to_dataset da).
Proof. unfold to_dataset. clean_prim. Qed.

Lemma clean_declares slc k1 k2 : clean (declares slc k1 k2).
Proof.
  unfold declares. apply clean_bind; [apply clean_py_in|].
  intros [|] _; [|apply clean_Ok].
  apply clean_bind; [apply clean_py_getitem|]. intros; apply clean_py_in.
Qed.

Section ExtractorFacts.

Variable parse_float : string -> option float.
Variable parse_int : string -> option Z.
Variable asarray_other : pyval -> ndarray.
Variable suffix_lower : string -> string.
Variable read_rainbow : string -> result pyval.

Local Abbreviation read_azi' :=
  (read_azi parse_float parse_int asarray_other suffix_lower read_rainbow).
Local Abbreviation get_axes' := (_get_data_and_axes parse_float parse_int asarray_other).
Local Abbreviation safe' := (_safe_float parse_float).

(** What [read_azi] has computed when it returns. *)
Lemma read_azi_Ok path ds :
  read_azi' path = Ok ds ->
  exists t v slc data az rng meta info,
    read_rainbow path = Ok (PDict t) /\
    lookup "volume" t = Some (PDict v) /\
    _extract_slice (PDict t) = Ok slc /\
    get_axes' slc = Ok (data, az, rng, meta) /\
    dict_get v "sensorinfo" (PDict []) = PDict info /\
    shape data = [length az; length rng] /\
    ds_values ds = data /\ ds_azimuth ds = az /\ ds_range ds = rng /\
    ds_lon ds = None /\ ds_lat ds = None /\ ds_alt ds = None /\
    ds_attrs ds =
      [ ("source", PStr "Rainbow .azi");
        ("elevation_deg", PFloat (elevation_deg meta));
        ("r0_m", PFloat (r0_m meta));
        ("dr_m", PFloat (dr_m meta));
        ("radar_lon", PFloat (safe' (dict_get info "@lon" (PFloat NaN))));
        ("radar_lat", PFloat (safe' (dict_get info "@lat" (PFloat NaN))));
        ("radar_alt_m", PFloat (safe' (dict_get info "@alt" (PFloat NaN)))) ].
Proof.
  unfold read_azi. intro H.
  destruct (negb _); [discriminate|].
  inv_ok H. rename a into tree. rename Ha into Htree.
  inv_ok H. rename a into slc. rename Ha into Hslc.
  inv_ok H. destruct a as [[[data az] rng] meta]. rename Ha into Hax.
  inv_ok H. inv_ok H. inv_ok H. inv_ok H. rename a2 into da. rename Ha2 into Hda.
  inv_ok H. rename a2 into vol. rename Ha2 into Hvol.
  inv_ok H. rename a2 into rinfo. rename Ha2 into Hinfo.
  inv_ok H. inv_ok H. inv_ok H. inv_ok H. rename a5 into ds0. rename Ha5 into Hds.
  apply py_get_Ok in Hvol. destruct Hvol as [t [-> Hv]].
  apply py_get_Ok in Hinfo. destruct Hinfo as [v [-> Hi]].
  apply py_get_Ok in Ha2. destruct Ha2 as [info [-> ->]].
  apply py_get_Ok in Ha3. destruct Ha3 as [info1 [E1 ->]].
  apply py_get_Ok in Ha4. destruct Ha4 as [info2 [E2 ->]].
  inversion E1; subst info1. inversion E2; subst info2. clear E1 E2.
  apply xr_DataArray_Ok in Hda. destruct Hda as [Hsh ->].
  apply to_dataset_Ok in Hds. simpl in Hds. subst ds0.
  inversion H; subst ds; clear H. simpl.
  exists t, v, slc, data, az, rng, meta, info.
  assert (Hv' : lookup "volume" t = Some (PDict v)).
  { unfold _extract_slice in Hslc. simpl in Hslc.
    unfold dict_get in Hslc, Hv.
    destruct (lookup "volume" t); [congruence | discriminate]. }
  repeat split; auto.
Qed.

Lemma extract_slice_shadow t v x :
  lookup "volume" t = Some (PDict v) ->
  _extract_slice (PDict (("volume", PDict (("sensorinfo", x) :: v)) :: t)) =
  _extract_slice (PDict t).
Proof.
  intro Hv. unfold _extract_slice. simpl. unfold dict_get. rewrite Hv.
  simpl. reflexivity.
Qed.

Lemma safe_float_unusable info key :
  unusable parse_float info key -> safe' (dict_get info key (PFloat NaN)) = NaN.
Proof.
  unfold unusable, dict_get, _safe_float.
  intros [-> | [v [e [-> ->]]]]; reflexivity.
Qed.

Ltac step :=
  match goal with
  | H : is_ok (Raise _) |- _ => destruct H; discriminate
  | H : is_ok (bind ?r _) |- _ => destruct r eqn:?; simpl in H
  | H : is_ok (match ?r with _ => _ end) |- _ => destruct r eqn:?; simpl in H
  end.

(** C9. Radar position fields: a longitude, latitude or altitude that is
    absent from the sensor block, or that [float()] cannot convert, is
    stored as NaN in the attributes of the dataset [read_azi] returns; and
    no content of the sensor block can make the extraction raise: replacing
    it by any other block leaves the extraction successful. *)
Theorem position_fields_absorbed path t ds :
  read_rainbow path = Ok (PDict t) ->
  read_azi' path = Ok ds ->
  exists v info,
    lookup "volume" t = Some (PDict v) /\
    dict_get v "sensorinfo" (PDict []) = PDict info /\
    (forall key attr, In (key, attr) position_fields ->
       lookup attr (ds_attrs ds) =
         Some (PFloat (safe' (dict_get info key (PFloat NaN)))) /\
       (unusable parse_float info key -> lookup attr (ds_attrs ds) = Some (PFloat NaN))) /\
    (forall path' info',
       suffix_lower path' = suffix_lower path ->
       read_rainbow path' =
         Ok (PDict (("volume", PDict (("sensorinfo", PDict info') :: v)) :: t)) ->
       is_ok (read_azi' path')).
Proof.
  intros Htree Hok.
  destruct (read_azi_Ok _ _ Hok)
    as (t' & v & slc & data & az & rng & meta & info & Ht & Hv & Hslc & Hax
        & Hinfo & Hsh & _ & _ & _ & _ & _ & _ & Hattrs).
  rewrite Htree in Ht. inversion Ht; subst t'. clear Ht.
  exists v, info. split; [exact Hv|]. split; [exact Hinfo|]. split.
  - intros key attr Hin.
    assert (E : lookup attr (ds_attrs ds) =
                Some (PFloat (safe' (dict_get info key (PFloat NaN))))).
    { rewrite Hattrs. simpl in Hin.
      destruct Hin as [E | [E | [E | []]]]; inversion E; subst; reflexivity. }
    split; [exact E|].
    intro Hbad. rewrite E, (safe_float_unusable _ _ Hbad). reflexivity.
  - intros path' info' Hsuf Htree'.
    unfold read_azi, detect_format in Hok |- *. rewrite Hsuf.
    destruct (negb _); [discriminate|].
    rewrite Htree in Hok. rewrite Htree'. simpl bind in Hok |- *.
    rewrite (extract_slice_shadow _ _ _ Hv), Hslc. rewrite Hslc in Hok.
    simpl bind in Hok |- *. rewrite Hax in Hok |- *. simpl bind in Hok |- *.
    inv_ok Hok. rewrite Ha. simpl bind.
    inv_ok Hok. rewrite Ha0. simpl bind.
    inv_ok Hok. rewrite Ha1. simpl bind.
    inv_ok Hok. rewrite Ha2. simpl bind.
    repeat inv_ok Hok.
    match goal with E : to_dataset _ = Ok _ |- _ => rewrite E end.
    simpl. eexists; reflexivity.
Qed.

Lemma get_axes_Ok slc data az rng meta :
  get_axes' slc = Ok (data, az, rng, meta) ->
  exists d x n,
    slc = PDict d /\
    lookup "data" d = Some x /\ data = np_asarray asarray_other x /\
    py_float parse_float (dict_get d "@elevation" (PFloat (Fin 0)))
      = Ok (elevation_deg meta) /\
    py_float parse_float (dict_get d "@rstart" (PFloat (Fin 0))) = Ok (r0_m meta) /\
    py_float parse_float (dict_get d "@rscale" (PFloat (Fin 1000))) = Ok (dr_m meta) /\
    bin_count parse_int slc data = Ok n /\
    rng = map (fun i => fadd (r0_m meta) (fmul (dr_m meta) i)) (arange_n n) /\
    azimuths parse_float slc data = Ok az.
Proof.
  unfold _get_data_and_axes. intro H.
  inv_ok H. destruct (negb a) eqn:Hd; [discriminate|].
  inv_ok H. inv_ok H. apply py_get_Ok in Ha1. destruct Ha1 as [d [-> ->]].
  simpl in Ha, Ha0. inversion Ha; subst a; clear Ha.
  destruct (lookup "data" d) as [x|] eqn:Hx; [|discriminate].
  inversion Ha0; subst a0; clear Ha0.
  inv_ok H. simpl bind in H. inv_ok H. simpl bind in H. inv_ok H.
  inv_ok H. inv_ok H. inv_ok H. inv_ok H.
  inversion H; subst; clear H. simpl.
  exists d, x, a3.
  repeat split; auto.
  - unfold bin_count. rewrite Ha2. exact Ha3.
  - unfold azimuths. rewrite Ha4. exact Ha5.
Qed.



Lemma clean_py_float x : clean (py_float parse_float x).
Proof. unfold py_float. clean_prim. Qed.

Lemma clean_py_int x : clean (py_int parse_int x).
Proof. unfold py_int, int_of_float. clean_prim. Qed.

Lemma clean_mapM_float l : clean (mapM (py_float parse_float) l).
Proof.
  induction l as [|a l IH]; simpl; [apply clean_Ok|].
  apply clean_bind; [apply clean_py_float|]. intros b _.
  apply clean_bind; [exact IH|]. intros; apply clean_Ok.
Qed.

Create HintDb clean.

#[local] Hint Resolve clean_Ok clean_py_in clean_py_getitem clean_py_getitem0
  clean_py_get clean_py_iter clean_shape_last clean_shape_first
  clean_xr_DataArray clean_to_dataset clean_declares clean_py_float
  clean_py_int clean_mapM_float : clean.

Ltac clean_chain :=
  repeat first
    [ solve [auto with clean]
    | apply clean_bind; [| intros ? _]
    | match goal with
      | |- clean (if ?b then _ else _) => destruct b
      | |- clean (match ?x with _ => _ end) => destruct x
      end ].

(** The only structural error [_get_data_and_axes] raises is the one for a
    slice without ['data']. *)
Lemma get_axes_malformed slc e :
  get_axes' slc = Raise e -> is_malformed e = true ->
  py_in "data" slc = Ok false /\ e = ValueError msg_data.
Proof.
  unfold _get_data_and_axes. intros H Hm.
  apply bind_Raise_inv in H. destruct H as [H | [b [Hb H]]].
  - apply clean_py_in in H. congruence.
  - destruct b; simpl in H.
    + exfalso. revert H Hm.
      match goal with |- ?r = _ -> _ => assert (C : clean r) end.
      { clean_chain. }
      intros H Hm. apply C in H. congruence.
    + inversion H; subst. auto.
Qed.

Lemma extract_slice_Ok tree slc :
  _extract_slice tree = Ok slc ->
  exists t v sc,
    tree = PDict t /\
    dict_get t "volume" PNone = PDict v /\
    dict_get v "scan" PNone = PDict sc /\
    dict_get sc "slice" PNone = slc /\ slc <> PNone.
Proof.
  unfold _extract_slice. intro H.
  inv_ok H. apply py_get_Ok in Ha. destruct Ha as [t [-> ->]].
  destruct (dict_get t "volume" PNone) eqn:Hv; try discriminate;
    try (inv_ok H; discriminate).
  inv_ok H. simpl in Ha. inversion Ha; subst a; clear Ha.
  destruct (dict_get d "scan" PNone) eqn:Hs; try discriminate;
    try (inv_ok H; discriminate).
  inv_ok H. simpl in Ha. inversion Ha; subst a; clear Ha.
  exists t, d, d0. repeat split; auto.
  - destruct (dict_get d0 "slice" PNone); try discriminate;
      inversion H; reflexivity.
  - intro E. subst slc. destruct (dict_get d0 "slice" PNone); discriminate.
Qed.

Lemma extract_slice_Raise tree e :
  _extract_slice tree = Raise e -> is_malformed e = true ->
  exists key, In key ["volume"; "scan"; "slice"] /\
              e = ValueError (msg_for key) /\ Missing tree key.
Proof.
  unfold _extract_slice. intros H Hm.
  apply bind_Raise_inv in H. destruct H as [H | [vol [Hvol H]]].
  { apply clean_py_get in H. congruence. }
  apply py_get_Ok in Hvol. destruct Hvol as [t [-> ->]].
  destruct (dict_get t "volume" PNone) eqn:Hv;
    try (apply bind_Raise_inv in H; destruct H as [H | [? [H _]]];
         [apply clean_py_get in H; congruence | discriminate]).
  { inversion H; subst. exists "volume". simpl. split; [auto|].
    split; [reflexivity|]. constructor; exact Hv. }
  simpl in H.
  destruct (dict_get d "scan" PNone) eqn:Hs;
    try (apply bind_Raise_inv in H; destruct H as [H | [? [H _]]];
         [apply clean_py_get in H; congruence | discriminate]).
  { inversion H; subst. exists "scan". simpl. split; [auto|].
    split; [reflexivity|]. econstructor; eassumption. }
  simpl in H.
  destruct (dict_get d0 "slice" PNone) eqn:Hl; try discriminate.
  inversion H; subst. exists "slice". simpl. split; [auto|].
  split; [reflexivity|]. econstructor; eassumption.
Qed.


End ExtractorFacts.

(** *** Georeferencing *)

Section GeorefFacts.

Variable deg2rad : float -> float.
Variable parse_float : string -> option float.

Local Abbreviation to_lonlat := (polar_dataset_to_lonlat deg2rad parse_float).
Local Abbreviation elevation' := (elevation_of parse_float).

Lemma polar_to_xyz_raises ranges az elev :
  polar_to_xyz deg2rad ranges az elev = Raise (TypeError msg_site).
Proof. reflexivity. Qed.

(** Once the elevation attribute converts, [polar_dataset_to_lonlat] stops
    at the call of [spherical_to_xyz]. *)
Lemma to_lonlat_stops ds elev rlon rlat ralt :
  elevation' ds = Ok elev ->
  to_lonlat ds rlon rlat ralt = Raise (TypeError msg_site).
Proof.
  intro He. unfold polar_dataset_to_lonlat. rewrite He. reflexivity.
Qed.

Lemma to_lonlat_conversion_error ds e rlon rlat ralt :
  elevation' ds = Raise e -> to_lonlat ds rlon rlat ralt = Raise e.
Proof.
  intro He. unfold polar_dataset_to_lonlat. rewrite He. reflexivity.
Qed.

(** C10. For a polar dataset without the [elevation_deg] attribute the
    missing attribute itself is no error: the elevation is taken as 0.0 and
    handed to [polar_to_xyz], and the call behaves exactly as on the same
    dataset carrying an explicit [elevation_deg = 0.0].  But no coordinates
    are produced: the call of [spherical_to_xyz] inside [polar_to_xyz] lacks
    the [site] argument and raises [TypeError]. *)
Theorem missing_elevation_raises ds rlon rlat ralt :
  lookup "elevation_deg" (ds_attrs ds) = None ->
  elevation_of parse_float ds = Ok (Fin 0) /\
  polar_to_xyz deg2rad (ds_range ds) (ds_azimuth ds) (Fin 0)
    = Raise (TypeError msg_site) /\
  polar_dataset_to_lonlat deg2rad parse_float ds rlon rlat ralt
    = Raise (TypeError msg_site) /\
  polar_dataset_to_lonlat deg2rad parse_float
    (set_attrs ds (("elevation_deg", PFloat (Fin 0)) :: ds_attrs ds))
    rlon rlat ralt
  = polar_dataset_to_lonlat deg2rad parse_float ds rlon rlat ralt.
Proof.
  intro Habs.
  assert (He : elevation' ds = Ok (Fin 0)).
  { unfold elevation_of, dict_get. rewrite Habs. reflexivity. }
  split; [exact He|]. split; [apply polar_to_xyz_raises|].
  rewrite (to_lonlat_stops ds (Fin 0) rlon rlat ralt He).
  split; [reflexivity|].
  apply (to_lonlat_stops _ (Fin 0)). reflexivity.
Qed.

End GeorefFacts.

(** *** The shape invariant through extraction and georeferencing *)

Section PipelineFacts.

Variable parse_float : string -> option float.
Variable parse_int : string -> option Z.
Variable asarray_other : pyval -> ndarray.
Variable suffix_lower : string -> string.
Variable read_rainbow : string -> result pyval.
Variable deg2rad : float -> float.

(** C3. The dataset [read_azi] returns has values of shape
    [(len(azimuth), len(range))], whichever way the bin count was obtained
    (a first ray's [@bins] or the trailing dimension of the data), and it
    carries no lon, lat or alt.  The georeferencing stage does not get as
    far as attaching them: on every such dataset, whatever the radar
    position, [polar_dataset_to_lonlat] raises the [TypeError] of the call
    of [spherical_to_xyz] without [site]. *)
Theorem shape_invariant path ds rlon rlat ralt :
  read_azi parse_float parse_int asarray_other suffix_lower read_rainbow path
    = Ok ds ->
  shape (ds_values ds) = [length (ds_azimuth ds); length (ds_range ds)] /\
  (ds_lon ds = None /\ ds_lat ds = None /\ ds_alt ds = None) /\
  polar_dataset_to_lonlat deg2rad parse_float ds rlon rlat ralt
    = Raise (TypeError msg_site).
Proof.
  intros Hok.
  destruct (read_azi_Ok _ _ _ _ _ _ _ Hok)
    as (t & v & slc & data & az & rng & meta & info & _ & _ & _ & _ & _
        & Hsh & Hval & Haz & Hrng & Hlon & Hlat & Halt & Hattrs).
  rewrite Hval, Haz, Hrng. split; [exact Hsh|].
  split; [auto|].
  apply (to_lonlat_stops deg2rad parse_float ds (elevation_deg meta)).
  unfold elevation_of. rewrite Hattrs. reflexivity.
Qed.

End PipelineFacts.


(** *** Gridding *)

Lemma fmin_fin_or_nan a b :
  fmin a b = a \/ fmin a b = b.
Proof.
  destruct a, b; simpl; auto; destruct (Qle_bool _ _); auto.
Qed.

Lemma nth_queries xs ys i j d :
  (i < length ys)%nat -> (j < length xs)%nat ->
  nth (i * length xs + j) (queries xs ys) d = (nth j xs NaN, nth i ys NaN).
Proof.
  unfold queries. revert i. induction ys as [|y ys IH]; intros i Hi Hj.
  - simpl in Hi. lia.
  - simpl. destruct i as [|i].
    + simpl. rewrite app_nth1 by (rewrite length_map; exact Hj).
      rewrite (nth_indep _ d (NaN, y)) by (rewrite length_map; exact Hj).
      rewrite (map_nth (fun x => (x, y))). reflexivity.
    + rewrite app_nth2 by (rewrite length_map; simpl; lia).
      rewrite length_map.
      replace (S i * length xs + j - length xs)%nat with (i * length xs + j)%nat
        by (simpl; lia).
      apply IH; [simpl in Hi; lia | exact Hj].
Qed.

Lemma length_queries xs ys :
  length (queries xs ys) = (length ys * length xs)%nat.
Proof.
  unfold queries. induction ys as [|y ys IH]; simpl; [reflexivity|].
  rewrite length_app, length_map, IH. reflexivity.
Qed.

Lemma isfinite_Fin f : isfinite f = true -> exists q, f = Fin q.
Proof. destruct f; try discriminate. eauto. Qed.

Lemma fle_refl f : isfinite f = true -> fle f f = true.
Proof.
  intro H. apply isfinite_Fin in H. destruct H as [q ->]. simpl.
  apply Qle_bool_iff. apply Qle_refl.
Qed.

Lemma fle_trans a b c :
  fle a b = true -> fle b c = true -> fle a c = true.
Proof.
  destruct a, b, c; simpl; try discriminate; auto.
  rewrite !Qle_bool_iff. apply Qle_trans.
Qed.

Lemma flt_false_fle a b :
  isfinite a = true -> isfinite b = true -> flt a b = false -> fle b a = true.
Proof.
  intros Ha Hb. apply isfinite_Fin in Ha, Hb.
  destruct Ha as [x ->], Hb as [y ->]. simpl.
  destruct (Qle_bool y x); simpl; congruence.
Qed.

Lemma flt_true_fle a b :
  isfinite a = true -> isfinite b = true -> flt a b = true -> fle a b = true.
Proof.
  intros Ha Hb. apply isfinite_Fin in Ha, Hb.
  destruct Ha as [x ->], Hb as [y ->]. simpl.
  destruct (Qle_bool y x) eqn:E; simpl; [discriminate|]. intros _.
  apply Qle_bool_iff. apply Qlt_le_weak. apply Qnot_le_lt.
  intro H. apply Qle_bool_iff in H. congruence.
Qed.

(** [argmin_from] scans a suffix [l] of a list [pre ++ l], holding the index
    and value of a least element of [pre]. *)
Lemma argmin_from_least l :
  forall pre best bd,
    Forall (fun d => isfinite d = true) (pre ++ l) ->
    (best < length pre)%nat -> nth best pre NaN = bd ->
    (forall d, In d pre -> fle bd d = true) ->
    let k := argmin_from best bd (length pre) l in
    (k < length (pre ++ l))%nat /\
    forall d, In d (pre ++ l) -> fle (nth k (pre ++ l) NaN) d = true.
Proof.
  induction l as [|d t IH]; intros pre best bd Hfin Hb Hbd Hle; simpl.
  - rewrite app_nil_r. split; [exact Hb|]. rewrite Hbd. exact Hle.
  - assert (Hd : isfinite d = true).
    { rewrite Forall_forall in Hfin. apply Hfin. apply in_or_app. right; left; auto. }
    assert (Hbdf : isfinite bd = true).
    { rewrite Forall_forall in Hfin. apply Hfin. apply in_or_app. left.
      rewrite <- Hbd. apply nth_In. exact Hb. }
    replace (pre ++ d :: t) with ((pre ++ [d]) ++ t) in *
      by (rewrite <- app_assoc; reflexivity).
    replace (S (length pre)) with (length (pre ++ [d]))
      by (rewrite length_app; simpl; lia).
    destruct (flt d bd) eqn:E.
    + apply IH.
      * exact Hfin.
      * rewrite length_app; simpl; lia.
      * rewrite app_nth2 by lia. rewrite Nat.sub_diag. reflexivity.
      * intros e He. apply in_app_or in He. destruct He as [He | [<- | []]].
        -- eapply fle_trans; [apply flt_true_fle; eauto | apply Hle; exact He].
        -- apply fle_refl; exact Hd.
    + apply IH.
      * exact Hfin.
      * rewrite length_app; simpl; lia.
      * rewrite app_nth1 by exact Hb. exact Hbd.
      * intros e He. apply in_app_or in He. destruct He as [He | [<- | []]].
        -- apply Hle; exact He.
        -- apply flt_false_fle; auto.
Qed.

Lemma argmin_least l :
  l <> [] -> Forall (fun d => isfinite d = true) l ->
  (argmin l < length l)%nat /\
  forall d, In d l -> fle (nth (argmin l) l NaN) d = true.
Proof.
  destruct l as [|d t]; [congruence|]. intros _ Hfin.
  assert (Hd : isfinite d = true) by (inversion Hfin; assumption).
  apply (argmin_from_least t [d] O d); simpl; auto.
  intros e [<- | []]. apply fle_refl; exact Hd.
Qed.

Lemma dist2_finite q p :
  isfinite (fst q) = true -> isfinite (snd q) = true ->
  isfinite (fst p) = true -> isfinite (snd p) = true ->
  isfinite (dist2 q p) = true.
Proof.
  destruct q as [qx qy], p as [px py]. simpl. intros A B C D.
  apply isfinite_Fin in A, B, C, D.
  destruct A as [? ->], B as [? ->], C as [? ->], D as [? ->]. reflexivity.
Qed.

(** The point [query] returns is at least distance from the query point. *)
Lemma query_nearest pts q :
  pts <> [] ->
  isfinite (fst q) = true -> isfinite (snd q) = true ->
  Forall (fun p => isfinite (fst p) = true /\ isfinite (snd p) = true) pts ->
  (query pts q < length pts)%nat /\
  forall p, In p pts ->
    fle (dist2 q (nth (query pts q) pts (NaN, NaN))) (dist2 q p) = true.
Proof.
  intros Hne Hx Hy Hfin. unfold query.
  assert (Hl : map (dist2 q) pts <> []) by (destruct pts; simpl; congruence).
  assert (Hf : Forall (fun d => isfinite d = true) (map (dist2 q) pts)).
  { rewrite Forall_forall in *. intros d Hd. apply in_map_iff in Hd.
    destruct Hd as [p [<- Hp]]. destruct (Hfin p Hp). apply dist2_finite; auto. }
  destruct (argmin_least _ Hl Hf) as [Hk Hmin].
  rewrite length_map in Hk. split; [exact Hk|].
  intros p Hp.
  specialize (Hmin (dist2 q p) (in_map _ _ _ Hp)).
  rewrite (nth_indep _ NaN (dist2 q (NaN, NaN))) in Hmin
    by (rewrite length_map; exact Hk).
  rewrite map_nth in Hmin. exact Hmin.
Qed.

(** *** float64 rounding and [np.arange] *)

Lemma fadd_finite_inv a b :
  isfinite (fadd a b) = true -> isfinite a = true /\ isfinite b = true.
Proof. destruct a, b; simpl; try discriminate; auto. Qed.

Lemma fsub_finite_inv a b :
  isfinite (fsub a b) = true -> isfinite a = true /\ isfinite b = true.
Proof. destruct a, b; simpl; try discriminate; auto. Qed.

Lemma qsign_zero y : y == 0 -> qsign y = Eq.
Proof. intro E. unfold qsign. apply Qeq_alt. exact E. Qed.

Lemma fdiv_zero a y : y == 0 -> isfinite (fdiv a (Fin y)) = false.
Proof.
  intro E. destruct a as [x| | |]; simpl; rewrite ?(qsign_zero y E);
    try reflexivity.
  destruct (qsign x); reflexivity.
Qed.

Lemma fdiv_finite_inv a b :
  isfinite (fdiv a b) = true ->
  isfinite a = true /\ b <> NaN /\ forall y, b = Fin y -> ~ y == 0.
Proof.
  intro H.
  assert (Hy : forall y, b = Fin y -> ~ y == 0).
  { intros y -> E. rewrite (fdiv_zero a y E) in H. discriminate. }
  destruct a as [x| | |], b as [y| | |]; simpl in H; try discriminate;
    try (repeat split; [congruence | exact Hy]).
  all: destruct (qsign y); discriminate.
Qed.

Lemma fle_refl_nn a : a <> NaN -> fle a a = true.
Proof.
  destruct a; simpl; try congruence; intros _.
  apply Qle_bool_iff. apply Qle_refl.
Qed.

Lemma fle_total_nn a b :
  a <> NaN -> b <> NaN -> fle a b = false -> fle b a = true.
Proof.
  destruct a as [x| | |], b as [y| | |]; simpl; try congruence; intros _ _ H.
  apply Qle_bool_iff. apply Qlt_le_weak. apply Qnot_le_lt.
  intro L. apply Qle_bool_iff in L. congruence.
Qed.

(** [np.nanmin] computes a least element among the entries that are not
    NaN, infinite ones included. *)
Lemma fold_fmin_lower l :
  (fold_right fmin NaN l = NaN /\ forall x, In x l -> x = NaN) \/
  (fold_right fmin NaN l <> NaN /\ In (fold_right fmin NaN l) l /\
   forall x, In x l -> x = NaN \/ fle (fold_right fmin NaN l) x = true).
Proof.
  induction l as [|a t IH]; [left; split; [reflexivity | intros x []]|].
  simpl fold_right. set (r := fold_right fmin NaN t) in *.
  destruct a as [q| | |] eqn:Ea.
  4:{ (* a = NaN *)
    simpl. destruct IH as [[E Hn] | (Hr & Hin & Hlow)].
    - left. split; [exact E|]. intros x [<- | Hx]; auto.
    - right. split; [exact Hr|]. split; [right; exact Hin|].
      intros x [<- | Hx]; auto. }
  all: rewrite <- Ea; assert (Ha : a <> NaN) by (rewrite Ea; discriminate);
    clear Ea; right;
    destruct IH as [[E Hn] | (Hr & Hin & Hlow)].
  all: try (rewrite E;
            replace (fmin a NaN) with a by (destruct a; reflexivity);
            split; [exact Ha|]; split; [left; reflexivity|];
            intros x [<- | Hx]; [right; apply fle_refl_nn; exact Ha | left; auto]).
  all: assert (Em : fmin a r = if fle a r then a else r)
         by (destruct a, r; try reflexivity; congruence);
       rewrite Em; destruct (fle a r) eqn:El;
       [ split; [exact Ha|]; split; [left; reflexivity|];
         intros x [<- | Hx]; [right; apply fle_refl_nn; exact Ha|];
         destruct (Hlow x Hx) as [-> | L]; [left; reflexivity|];
         right; eapply fle_trans; eassumption
       | split; [exact Hr|]; split; [right; exact Hin|];
         intros x [<- | Hx]; [right; apply fle_total_nn; assumption|];
         apply Hlow; exact Hx ].
Qed.

Lemma fold_fmax_upper l :
  (fold_right fmax NaN l = NaN /\ forall x, In x l -> x = NaN) \/
  (fold_right fmax NaN l <> NaN /\ In (fold_right fmax NaN l) l /\
   forall x, In x l -> x = NaN \/ fle x (fold_right fmax NaN l) = true).
Proof.
  induction l as [|a t IH]; [left; split; [reflexivity | intros x []]|].
  simpl fold_right. set (r := fold_right fmax NaN t) in *.
  destruct a as [q| | |] eqn:Ea.
  4:{ simpl. destruct IH as [[E Hn] | (Hr & Hin & Hup)].
    - left. split; [exact E|]. intros x [<- | Hx]; auto.
    - right. split; [exact Hr|]. split; [right; exact Hin|].
      intros x [<- | Hx]; auto. }
  all: rewrite <- Ea; assert (Ha : a <> NaN) by (rewrite Ea; discriminate);
    clear Ea; right;
    destruct IH as [[E Hn] | (Hr & Hin & Hup)].
  all: try (rewrite E;
            replace (fmax a NaN) with a by (destruct a; reflexivity);
            split; [exact Ha|]; split; [left; reflexivity|];
            intros x [<- | Hx]; [right; apply fle_refl_nn; exact Ha | left; auto]).
  all: assert (Em : fmax a r = if fle a r then r else a)
         by (destruct a, r; try reflexivity; congruence);
       rewrite Em; destruct (fle a r) eqn:El;
       [ split; [exact Hr|]; split; [right; exact Hin|];
         intros x [<- | Hx]; [right; exact El|];
         apply Hup; exact Hx
       | split; [exact Ha|]; split; [left; reflexivity|];
         intros x [<- | Hx]; [right; apply fle_refl_nn; exact Ha|];
         destruct (Hup x Hx) as [-> | L]; [left; reflexivity|];
         right; eapply fle_trans; [exact L|];
         apply fle_total_nn; assumption ].
Qed.

(** When both [np.nanmin] and [np.nanmax] of a list are finite, every entry
    is finite or NaN and the two results bound the finite ones. *)
Lemma finite_bounds_extent l lo hi :
  fold_right fmin NaN l = Fin lo -> fold_right fmax NaN l = Fin hi ->
  fin_or_nan l /\ extent l lo hi.
Proof.
  intros Emin Emax.
  destruct (fold_fmin_lower l) as [[E _] | (_ & Hin & Hlow)]; [congruence|].
  destruct (fold_fmax_upper l) as [[E _] | (_ & Hin' & Hup)]; [congruence|].
  rewrite Emin in *. rewrite Emax in *.
  assert (Hb : forall x, In x l -> x = NaN \/ exists q, x = Fin q /\ lo <= q /\ q <= hi).
  { intros x Hx. destruct (Hlow x Hx) as [-> | L]; [left; reflexivity|].
    destruct (Hup x Hx) as [-> | U]; [left; reflexivity|].
    destruct x as [q| | |]; simpl in L, U; try discriminate.
    right. exists q. rewrite !Qle_bool_iff in *. auto. }
  split.
  - intros x Hx. destruct (Hb x Hx) as [-> | (q & -> & _)]; auto.
  - split; [exact Hin|]. split; [exact Hin'|].
    intros q Hq. destruct (Hb _ Hq) as [E | (q' & E & H1 & H2)]; [discriminate|].
    inversion E; subst q'. auto.
Qed.

Section RoundingFacts.

Variable f64 : Q -> float.

Lemma rnd_nonfinite x : isfinite x = false -> rnd f64 x = x.
Proof. destruct x; simpl; congruence. Qed.

Lemma rnd_finite_inv x : isfinite (rnd f64 x) = true -> isfinite x = true.
Proof. destruct x; simpl; congruence. Qed.

Lemma radd_finite_inv a b :
  isfinite (radd f64 a b) = true -> isfinite a = true /\ isfinite b = true.
Proof. intro H. apply rnd_finite_inv in H. apply fadd_finite_inv; exact H. Qed.

Lemma rsub_finite_inv a b :
  isfinite (rsub f64 a b) = true -> isfinite a = true /\ isfinite b = true.
Proof. intro H. apply rnd_finite_inv in H. apply fsub_finite_inv; exact H. Qed.

Lemma rdiv_finite_inv a b :
  isfinite (rdiv f64 a b) = true ->
  isfinite a = true /\ b <> NaN /\ forall y, b = Fin y -> ~ y == 0.
Proof. intro H. apply rnd_finite_inv in H. apply fdiv_finite_inv; exact H. Qed.

(** What [np.arange] has computed when it returns. *)
Lemma arange_Ok start stop step l :
  arange f64 start stop step = Ok l -> np_axis f64 l start stop step.
Proof.
  unfold arange, np_axis.
  destruct (rdiv f64 (rsub f64 stop start) step) as [q| | |]; try discriminate.
  destruct (max_intp <? Qceiling q)%Z eqn:Hmax; [discriminate|].
  intro H. inversion H; subst l; clear H. exists q.
  split; [reflexivity|].
  split; [apply Z.ltb_ge in Hmax; exact Hmax|].
  rewrite length_map, length_seq. split; [reflexivity|].
  intros i Hi.
  set (f := arange_item f64 start _ _).
  rewrite (nth_indep _ NaN (f O)) by (rewrite length_map, length_seq; exact Hi).
  rewrite map_nth, seq_nth by exact Hi. simpl.
  destruct i as [|[|i]]; reflexivity.
Qed.

(** [np.arange] returns only for finite bounds and a step that is neither
    NaN nor zero. *)
Lemma arange_Ok_finite start stop step l :
  arange f64 start stop step = Ok l ->
  isfinite start = true /\ isfinite stop = true /\
  step <> NaN /\ forall y, step = Fin y -> ~ y == 0.
Proof.
  intro H. apply arange_Ok in H. destruct H as (q & Hq & _).
  assert (Hf : isfinite (rdiv f64 (rsub f64 stop start) step) = true)
    by (rewrite Hq; reflexivity).
  apply rdiv_finite_inv in Hf. destruct Hf as (Hd & Hs1 & Hs2).
  apply rsub_finite_inv in Hd. tauto.
Qed.

Lemma arange_nonfinite_quotient start stop step :
  isfinite (fdiv (rsub f64 stop start) step) = false ->
  arange_refuses (arange f64 start stop step).
Proof.
  intro H. unfold arange_refuses, arange, rdiv. rewrite (rnd_nonfinite _ H).
  destruct (fdiv _ _); try discriminate; auto.
Qed.

(** [np.arange] refuses a start that is not finite. *)
Lemma arange_nonfinite_start start stop step :
  isfinite start = false -> arange_refuses (arange f64 start stop step).
Proof.
  intro H.
  destruct (isfinite (fdiv (rsub f64 stop start) step)) eqn:E;
    [|apply arange_nonfinite_quotient; exact E].
  apply fdiv_finite_inv in E. destruct E as [E _].
  apply rsub_finite_inv in E. destruct E as [_ E]. congruence.
Qed.

(** [np.arange] refuses a zero step. *)
Lemma arange_zero_step start stop y :
  y == 0 -> arange_refuses (arange f64 start stop (Fin y)).
Proof. intro E. apply arange_nonfinite_quotient. apply fdiv_zero. exact E. Qed.

End RoundingFacts.

(** *** Which errors gridding raises *)

Lemma crs_free_Ok {A} (a : A) : crs_free (Ok a).
Proof. intros e H; discriminate. Qed.

Lemma crs_free_bind {A B} (r : result A) (k : A -> result B) :
  crs_free r -> (forall a, crs_free (k a)) -> crs_free (bind r k).
Proof.
  intros Hr Hk e H. apply bind_Raise_inv in H.
  destruct H as [H | [a [_ H]]]; [apply Hr | apply (Hk a)]; exact H.
Qed.

Lemma crs_free_nanmin l : crs_free (nanmin l).
Proof. intros e H. destruct l; inversion H. reflexivity. Qed.

Lemma crs_free_nanmax l : crs_free (nanmax l).
Proof. intros e H. destruct l; inversion H. reflexivity. Qed.

Lemma crs_free_arange f64 a b c : crs_free (arange f64 a b c).
Proof.
  intros e H. unfold arange in H.
  destruct (rdiv f64 (rsub f64 b a) c); try (inversion H; reflexivity).
  destruct (max_intp <? Qceiling q)%Z; inversion H; reflexivity.
Qed.

Lemma fold_fmin_nonfinite l :
  (forall x, In x l -> isfinite x = false) ->
  isfinite (fold_right fmin NaN l) = false.
Proof.
  induction l as [|a l IH]; intro H; simpl; [reflexivity|].
  destruct (fmin_fin_or_nan a (fold_right fmin NaN l)) as [-> | ->].
  - apply H. left; reflexivity.
  - apply IH. intros x Hx. apply H. right; exact Hx.
Qed.

Lemma filter_none {A} (f : A -> bool) (l : list A) :
  (forall x, In x l -> f x = false) -> filter f l = [].
Proof.
  induction l as [|a l IH]; intro H; simpl; [reflexivity|].
  rewrite (H a (or_introl eq_refl)). apply IH.
  intros x Hx. apply H. right; exact Hx.
Qed.

Section GriddingFacts.

Variable epsg_valid : Z -> bool.
Variable transform : Z -> float -> float -> float * float.
Variable f32 : float -> float.
Variable f64 : Q -> float.

Local Abbreviation to_grid := (polar_to_grid_2d epsg_valid transform f32 f64).

Lemma grid_to_dataset_Ok name out xs ys attrs g :
  grid_to_dataset name out xs ys attrs = Ok g ->
  grid_name_ok name = true /\ g = mk_GridDataset name out xs ys attrs [].
Proof.
  unfold grid_to_dataset, grid_name_ok.
  destruct name as [| | |s| | |]; try discriminate;
    try solve [intro H; inversion H; auto].
  destruct (String.eqb s "x" || String.eqb s "y"); try discriminate.
  intro H; inversion H; auto.
Qed.

(** What [polar_to_grid_2d] has computed when it returns. *)
Lemma to_grid_Ok ds epsg dx dy buffer_m nodata g :
  to_grid ds epsg dx dy buffer_m nodata = Ok g ->
  exists lon lat xmin xmax ymin ymax,
    ds_lon ds = Some lon /\ ds_lat ds = Some lat /\ epsg_valid epsg = true /\
    let XY := projected transform epsg lon lat in
    nanmin (map fst XY) = Ok xmin /\ nanmax (map fst XY) = Ok xmax /\
    nanmin (map snd XY) = Ok ymin /\ nanmax (map snd XY) = Ok ymax /\
    arange f64 (rsub f64 xmin buffer_m) (radd f64 (radd f64 xmax buffer_m) dx) dx
      = Ok (g_x g) /\
    arange f64 (rsub f64 ymin buffer_m) (radd f64 (radd f64 ymax buffer_m) dy) dy
      = Ok (g_y g) /\
    g_values g =
      mk_ndarray [length (g_y g); length (g_x g)]
        (grid_cells f32 (candidates (ds_values ds) XY) nodata (g_x g) (g_y g)) /\
    g_name g = ds_name ds /\ grid_name_ok (ds_name ds) = true /\
    g_var_attrs g = [("units", dict_get (ds_var_attrs ds) "units" (PStr ""))] /\
    lookup "nodata" (g_attrs g) = Some (PFloat nodata) /\
    lookup "method" (g_attrs g) = Some (PStr "nearest (K=1)") /\
    lookup "crs" (g_attrs g) = Some (PStr ("EPSG:" ++ string_of_Z epsg)).
Proof.
  unfold polar_to_grid_2d. intro H.
  inv_ok H. inv_ok H.
  destruct (ds_lon ds) as [lon|]; [|discriminate].
  destruct (ds_lat ds) as [lat|]; [|discriminate].
  simpl in Ha, Ha0. inversion Ha; inversion Ha0; subst a a0; clear Ha Ha0.
  destruct (epsg_valid epsg) eqn:Hv; simpl in H; [|discriminate].
  do 6 inv_ok H. inv_ok H.
  apply grid_to_dataset_Ok in Ha5. destruct Ha5 as [Hn ->].
  inversion H; subst g; clear H. simpl.
  exists lon, lat, a, a0, a1, a2. unfold projected, candidates, grid_cells.
  repeat split; auto.
Qed.

Lemma nanmin_Ok l m : nanmin l = Ok m -> l <> [] /\ m = fold_right fmin NaN l.
Proof.
  destruct l; [discriminate|]. intro H. inversion H. split; [discriminate | reflexivity].
Qed.

Lemma nanmax_Ok l m : nanmax l = Ok m -> l <> [] /\ m = fold_right fmax NaN l.
Proof.
  destruct l; [discriminate|]. intro H. inversion H. split; [discriminate | reflexivity].
Qed.

(** An axis is produced only over a finite extent: the coordinates it is
    taken over are finite or NaN, and the buffer and the step are finite. *)
Lemma axis_extent X lo hi buffer_m d l :
  nanmin X = Ok lo -> nanmax X = Ok hi ->
  arange f64 (rsub f64 lo buffer_m) (radd f64 (radd f64 hi buffer_m) d) d = Ok l ->
  exists qlo qhi qb qd,
    lo = Fin qlo /\ hi = Fin qhi /\ buffer_m = Fin qb /\ d = Fin qd /\
    ~ qd == 0 /\ fin_or_nan X /\ extent X qlo qhi.
Proof.
  intros Hmin Hmax Har.
  apply nanmin_Ok in Hmin. apply nanmax_Ok in Hmax.
  destruct Hmin as [_ Emin], Hmax as [_ Emax].
  destruct (arange_Ok_finite _ _ _ _ _ Har) as (Hstart & Hstop & Hd1 & Hd2).
  apply rsub_finite_inv in Hstart. destruct Hstart as [Hlo Hb].
  apply radd_finite_inv in Hstop. destruct Hstop as [Hstop Hd].
  apply radd_finite_inv in Hstop. destruct Hstop as [Hhi _].
  apply isfinite_Fin in Hlo, Hhi, Hb, Hd.
  destruct Hlo as [qlo ->], Hhi as [qhi ->], Hb as [qb ->], Hd as [qd ->].
  exists qlo, qhi, qb, qd. repeat (split; [reflexivity|]).
  split; [exact (Hd2 qd eq_refl)|].
  apply finite_bounds_extent; congruence.
Qed.

Lemma candidates_spec v XY s :
  In s (candidates v XY) <->
  In s (combine (flat v) (combine (map fst XY) (map snd XY))) /\
  isfinite (fst s) = true /\ isfinite (fst (snd s)) = true /\
  isfinite (snd (snd s)) = true.
Proof.
  unfold candidates. rewrite filter_In. unfold all_finite.
  rewrite !andb_true_iff. tauto.
Qed.

Lemma length_grid_cells cands nodata xs ys :
  length (grid_cells f32 cands nodata xs ys) = (length ys * length xs)%nat.
Proof.
  unfold grid_cells. destruct (map snd cands).
  - apply repeat_length.
  - rewrite length_map. apply length_queries.
Qed.

Lemma grid_cells_nonempty cands nodata xs ys :
  cands <> [] ->
  grid_cells f32 cands nodata xs ys =
  map (cell f32 (map snd cands) (map fst cands) nodata) (queries xs ys).
Proof. destruct cands; [congruence | reflexivity]. Qed.

Lemma nth_grid_cells cands nodata xs ys i j :
  cands <> [] -> (i < length ys)%nat -> (j < length xs)%nat ->
  nth (i * length xs + j) (grid_cells f32 cands nodata xs ys) NaN =
  cell f32 (map snd cands) (map fst cands) nodata (nth j xs NaN, nth i ys NaN).
Proof.
  intros Hne Hi Hj. rewrite grid_cells_nonempty by exact Hne.
  set (c := cell f32 _ _ _).
  rewrite (nth_indep _ NaN (c (NaN, NaN)))
    by (rewrite length_map, length_queries; nia).
  rewrite map_nth, nth_queries by assumption. reflexivity.
Qed.

(** One cell of the grid when there are candidates and the centre of the
    cell is finite: the squared Euclidean distance from the centre to the
    sample whose value the cell takes is least among the candidates. *)
Lemma grid_cell_nearest cands nodata xs ys i j cx cy :
  cands <> [] ->
  Forall (fun s => all_finite s = true) cands ->
  (i < length ys)%nat -> (j < length xs)%nat ->
  nth j xs NaN = Fin cx -> nth i ys NaN = Fin cy ->
  exists v px py,
    In (v, (Fin px, Fin py)) cands /\
    (forall w sx sy, In (w, (Fin sx, Fin sy)) cands ->
       (px - cx) * (px - cx) + (py - cy) * (py - cy)
       <= (sx - cx) * (sx - cx) + (sy - cy) * (sy - cy)) /\
    nth (i * length xs + j) (grid_cells f32 cands nodata xs ys) NaN =
      (if isfinite (f32 v) then f32 v else f32 nodata).
Proof.
  intros Hne Hc Hi Hj Hcx Hcy.
  set (q := (Fin cx, Fin cy)).
  set (pts := map snd cands). set (vals := map fst cands).
  assert (Hpts : pts <> []) by (subst pts; destruct cands; simpl; congruence).
  assert (Hpf : Forall (fun p => isfinite (fst p) = true /\ isfinite (snd p) = true) pts).
  { subst pts. rewrite Forall_forall in *. intros p Hp.
    apply in_map_iff in Hp. destruct Hp as [s [<- Hs]].
    specialize (Hc s Hs). unfold all_finite in Hc.
    rewrite !andb_true_iff in Hc. tauto. }
  destruct (query_nearest pts q Hpts eq_refl eq_refl Hpf) as [Hk Hmin].
  set (k := query pts q) in *.
  assert (Hkc : (k < length cands)%nat) by (subst pts; rewrite length_map in Hk; exact Hk).
  assert (E : nth k cands (NaN, (NaN, NaN)) = (nth k vals NaN, nth k pts (NaN, NaN))).
  { subst vals pts.
    change NaN with (fst (NaN, (NaN, NaN))) at 4.
    change (NaN, NaN) with (snd (NaN, (NaN, NaN))) at 3.
    rewrite !map_nth. destruct (nth k cands _); reflexivity. }
  assert (Hin : In (nth k vals NaN, nth k pts (NaN, NaN)) cands)
    by (rewrite <- E; apply nth_In; exact Hkc).
  assert (Hp : exists px py, nth k pts (NaN, NaN) = (Fin px, Fin py)).
  { rewrite Forall_forall in Hpf.
    destruct (Hpf (nth k pts (NaN, NaN)) (nth_In _ _ Hk)) as [H1 H2].
    destruct (nth k pts (NaN, NaN)) as [a b]. simpl in H1, H2.
    apply isfinite_Fin in H1, H2. destruct H1 as [px ->], H2 as [py ->]. eauto. }
  destruct Hp as (px & py & Ep). rewrite Ep in *.
  exists (nth k vals NaN), px, py. split; [exact Hin|]. split.
  - intros w sx sy Hs.
    assert (Hs' : In (Fin sx, Fin sy) pts)
      by (subst pts; apply in_map_iff; exists (w, (Fin sx, Fin sy)); auto).
    specialize (Hmin _ Hs'). unfold dist2, q in Hmin. simpl in Hmin.
    apply Qle_bool_iff in Hmin. unfold Qminus. exact Hmin.
  - rewrite nth_grid_cells by assumption. rewrite Hcx, Hcy. reflexivity.
Qed.

Lemma grid_cells_single v p nodata xs ys i j :
  (i < length ys)%nat -> (j < length xs)%nat ->
  nth (i * length xs + j) (grid_cells f32 [(v, p)] nodata xs ys) NaN =
    (if isfinite (f32 v) then f32 v else f32 nodata).
Proof.
  intros Hi Hj. rewrite nth_grid_cells by (assumption || discriminate).
  reflexivity.
Qed.



Lemma crs_free_grid_to_dataset name out xs ys attrs :
  crs_free (grid_to_dataset name out xs ys attrs).
Proof.
  intros e H. unfold grid_to_dataset in H.
  destruct name as [| | |s| | |]; try discriminate;
    try solve [inversion H; reflexivity].
  destruct (String.eqb s "x" || String.eqb s "y");
    [inversion H; reflexivity | discriminate].
Qed.

Lemma grid_cells_empty cands nodata xs ys :
  cands = [] ->
  Forall (fun c => c = f32 nodata) (grid_cells f32 cands nodata xs ys).
Proof.
  intros ->. unfold grid_cells. simpl. apply Forall_forall.
  intros c Hc. apply repeat_spec in Hc. exact Hc.
Qed.


(** With no finite projected x, gridding stops in [np.arange]. *)
Lemma to_grid_nonfinite_extent ds epsg dx dy buffer_m nodata lon lat :
  ds_lon ds = Some lon -> ds_lat ds = Some lat ->
  epsg_valid epsg = true ->
  projected transform epsg lon lat <> [] ->
  (forall p, In p (projected transform epsg lon lat) -> isfinite (fst p) = false) ->
  arange_refuses (to_grid ds epsg dx dy buffer_m nodata).
Proof.
  intros Hlon Hlat Hv Hne Hnf.
  set (XY := projected transform epsg lon lat) in *.
  assert (HX : forall x, In x (map fst XY) -> isfinite x = false).
  { intros x Hx. apply in_map_iff in Hx. destruct Hx as [p [<- Hp]].
    apply Hnf; exact Hp. }
  unfold polar_to_grid_2d. rewrite Hlon, Hlat, Hv. simpl bind. simpl negb.
  cbv iota. fold (projected transform epsg lon lat). fold XY.
  destruct XY as [|p XY'] eqn:E; [congruence|]. rewrite <- E in *.
  assert (Emin : nanmin (map fst XY) = Ok (fold_right fmin NaN (map fst XY)))
    by (rewrite E; reflexivity).
  assert (Emax : nanmax (map fst XY) = Ok (fold_right fmax NaN (map fst XY)))
    by (rewrite E; reflexivity).
  assert (Eymin : nanmin (map snd XY) = Ok (fold_right fmin NaN (map snd XY)))
    by (rewrite E; reflexivity).
  assert (Eymax : nanmax (map snd XY) = Ok (fold_right fmax NaN (map snd XY)))
    by (rewrite E; reflexivity).
  rewrite Emin, Emax, Eymin, Eymax. cbn [bind].
  set (x0 := rsub f64 _ buffer_m).
  assert (Hx0 : isfinite x0 = false).
  { destruct (isfinite x0) eqn:F; [|reflexivity].
    apply rsub_finite_inv in F. destruct F as [F _].
    rewrite (fold_fmin_nonfinite _ HX) in F. discriminate. }
  match goal with
  | |- arange_refuses (bind (arange f64 x0 ?stop ?step) _) =>
      destruct (arange_nonfinite_start f64 x0 stop step Hx0) as [R | R];
        rewrite R; [left | right]; reflexivity
  end.
Qed.

(** C1. When the dataset carries lon and lat, the EPSG code is known and
    there is at least one sample, but no projected x is finite, no sample
    is a candidate and [polar_to_grid_2d] raises from [np.arange] on the
    non-finite extent: the nodata grid of the empty-candidate branch is
    never produced. *)
Theorem no_finite_coordinate_raises ds epsg dx dy buffer_m nodata lon lat :
  ds_lon ds = Some lon -> ds_lat ds = Some lat ->
  epsg_valid epsg = true ->
  projected transform epsg lon lat <> [] ->
  (forall p, In p (projected transform epsg lon lat) -> isfinite (fst p) = false) ->
  candidates (ds_values ds) (projected transform epsg lon lat) = [] /\
  (to_grid ds epsg dx dy buffer_m nodata
     = Raise (ValueError "arange: cannot compute length") \/
   to_grid ds epsg dx dy buffer_m nodata
     = Raise (ValueError "Maximum allowed size exceeded")).
Proof.
  intros Hlon Hlat Hv Hne Hnf. split.
  - set (XY := projected transform epsg lon lat) in *.
    assert (HX : forall x, In x (map fst XY) -> isfinite x = false).
    { intros x Hx. apply in_map_iff in Hx. destruct Hx as [p [<- Hp]].
      apply Hnf; exact Hp. }
    unfold candidates. apply filter_none. intros [v [x y]] Hs.
    apply in_combine_r in Hs. apply in_combine_l in Hs.
    unfold all_finite. simpl. rewrite (HX x Hs).
    destruct (isfinite v); reflexivity.
  - exact (to_grid_nonfinite_extent ds epsg dx dy buffer_m nodata lon lat
             Hlon Hlat Hv Hne Hnf).
Qed.

End GriddingFacts.

(** * The theorems at work on the demonstration inputs *)

Lemma position_fields_absorbed_witness :
  demo_read "sweep.azi" = Ok (PDict demo_tree) /\
  demo_read_azi "sweep.azi" = Ok demo_polar /\
  lookup "radar_lon" (ds_attrs demo_polar) = Some (PFloat NaN) /\
  lookup "radar_alt_m" (ds_attrs demo_polar) = Some (PFloat NaN) /\
  lookup "radar_lat" (ds_attrs demo_polar) = Some (PFloat (Fin 3)).
Proof.
  split; [reflexivity|]. split; [vm_compute; reflexivity|].
  destruct (position_fields_absorbed parse_ufloat parse_uint asarray_obj last4
              demo_read "sweep.azi" demo_tree demo_polar eq_refl eq_refl)
    as (v & info & Hv & Hinfo & Hfields & _).
  vm_compute in Hv. inversion Hv; subst v; clear Hv.
  vm_compute in Hinfo. inversion Hinfo; subst info; clear Hinfo.
  split; [|split].
  - apply (Hfields "@lon" "radar_lon"); [simpl; auto|].
    right. exists (PStr "west"), (ValueError "could not convert string to float").
    split; reflexivity.
  - apply (Hfields "@alt" "radar_alt_m"); [simpl; auto|].
    left. reflexivity.
  - destruct (Hfields "@lat" "radar_lat") as [E _]; [simpl; auto|]. exact E.
Defined.

Lemma demo_axes_value : demo_axes (PDict demo_slice) = Ok demo_extracted.
Proof. vm_compute. reflexivity. Qed.





Lemma shape_invariant_witness :
  demo_read_azi "sweep.azi" = Ok demo_polar /\
  shape (ds_values demo_polar) = [2; 3]%nat /\
  ds_lon demo_polar = None /\
  polar_dataset_to_lonlat (fun x => x) parse_ufloat demo_polar
    (Fin 0) (Fin 0) (Fin 0)
  = Raise (TypeError
             "spherical_to_xyz() missing 1 required positional argument: 'site'").
Proof.
  assert (H : demo_read_azi "sweep.azi" = Ok demo_polar)
    by (vm_compute; reflexivity).
  split; [exact H|].
  destruct (shape_invariant parse_ufloat parse_uint asarray_obj last4 demo_read
              (fun x => x) "sweep.azi" demo_polar (Fin 0) (Fin 0) (Fin 0) H)
    as (Hsh & (Hlon & _ & _) & Hgeo).
  split; [exact Hsh|]. split; [exact Hlon | exact Hgeo].
Defined.

Lemma missing_elevation_raises_witness :
  lookup "elevation_deg" (ds_attrs polar_no_elev) = None /\
  elevation_of parse_ufloat polar_no_elev = Ok (Fin 0) /\
  polar_dataset_to_lonlat (fun x => x) parse_ufloat polar_no_elev
    (Fin 0) (Fin 0) (Fin 0)
  = Raise (TypeError
             "spherical_to_xyz() missing 1 required positional argument: 'site'").
Proof.
  split; [reflexivity|].
  destruct (missing_elevation_raises (fun x => x) parse_ufloat
              polar_no_elev (Fin 0) (Fin 0) (Fin 0) eq_refl)
    as (Hel & _ & Hgeo & _).
  split; [exact Hel | exact Hgeo].
Defined.

Lemma no_finite_coordinate_raises_witness :
  only_utm17s 32717 = true /\
  candidates (ds_values demo_unlocated)
    (projected plane_transform 32717
       (mk_ndarray [1; 2]%nat [NaN; NaN]) (mk_ndarray [1; 2]%nat [NaN; NaN])) = [] /\
  demo_grid demo_unlocated 32717 (Fin 500) (Fin 500) (Fin 1000) nodata0
    = Raise (ValueError "arange: cannot compute length").
Proof.
  split; [reflexivity|].
  destruct (no_finite_coordinate_raises only_utm17s plane_transform f32_overflow
              round64 demo_unlocated 32717 (Fin 500) (Fin 500) (Fin 1000) nodata0
              (mk_ndarray [1; 2]%nat [NaN; NaN]) (mk_ndarray [1; 2]%nat [NaN; NaN])
              eq_refl eq_refl eq_refl)
    as [Hc Hr].
  - discriminate.
  - intros p Hp. vm_compute in Hp. destruct Hp as [<- | [<- | []]]; reflexivity.
  - split; [exact Hc|]. destruct Hr as [Hr | Hr]; [exact Hr|].
    vm_compute in Hr. discriminate.
Defined.




Lemma demo_scan_grid_value :
  demo_grid demo_scan 32717 (Fin 500) (Fin 500) (Fin 1000) nodata0
    = Ok demo_scan_grid.
Proof. vm_compute. reflexivity. Qed.


Lemma demo_offgrid_grid_value :
  demo_grid demo_offgrid 32717 (Fin 500) (Fin 500) (Fin 1000) nodata0
    = Ok demo_offgrid_grid.
Proof. vm_compute. reflexivity. Qed.


Lemma demo_silent_grid_value :
  demo_grid demo_silent 32717 (Fin 500) (Fin 500) (Fin 1000) nodata0
    = Ok demo_silent_grid.
Proof. vm_compute. reflexivity. Qed.


(** * Further properties of the extractor *)

Lemma nth_range_axis r0 dr n i :
  (i < Z.to_nat n)%nat ->
  nth i (map (fun k => fadd r0 (fmul dr k)) (arange_n n)) NaN
    = fadd r0 (fmul dr (of_nat i)).
Proof.
  intro Hi.
  rewrite (nth_indep _ NaN (fadd r0 (fmul dr NaN)))
    by (rewrite length_map, length_arange_n; exact Hi).
  rewrite (map_nth (fun k => fadd r0 (fmul dr k))).
  rewrite nth_arange_n by exact Hi. reflexivity.
Qed.

Section ExtractorMore.

Variable parse_float : string -> option float.
Variable parse_int : string -> option Z.
Variable asarray_other : pyval -> ndarray.
Variable suffix_lower : string -> string.
Variable read_rainbow : string -> result pyval.

Local Abbreviation read_azi' :=
  (read_azi parse_float parse_int asarray_other suffix_lower read_rainbow).
Local Abbreviation get_axes' := (_get_data_and_axes parse_float parse_int asarray_other).

(** X1. [read_azi] on a path whose suffix is not [.azi] raises the
    unsupported-format error without consulting the decoder; on an [.azi]
    path an exception of the decoder is passed on unchanged. *)
Theorem format_gate path :
  (suffix_lower path <> ".azi" ->
   read_azi parse_float parse_int asarray_other suffix_lower read_rainbow path
     = Raise (ValueError "Formato no soportado aún: unknown")) /\
  (forall e, suffix_lower path = ".azi" -> read_rainbow path = Raise e ->
     read_azi parse_float parse_int asarray_other suffix_lower read_rainbow path
       = Raise e).
Proof.
  unfold read_azi, detect_format. split.
  - intro H. destruct (String.eqb (suffix_lower path) ".azi") eqn:E.
    + apply String.eqb_eq in E. contradiction.
    + reflexivity.
  - intros e -> ->. reflexivity.
Qed.

(** X2. A NaN start or step of the range metadata is not an error: the
    extraction returns a range axis every entry of which is NaN. *)
Theorem nan_range_propagates slc data az rng meta :
  _get_data_and_axes parse_float parse_int asarray_other slc = Ok (data, az, rng, meta) ->
  r0_m meta = NaN \/ dr_m meta = NaN ->
  Forall (fun r => r = NaN) rng.
Proof.
  intros H Hnan. apply get_axes_Ok in H.
  destruct H as (d & x & n & _ & _ & _ & _ & _ & _ & _ & -> & _).
  apply Forall_forall. intros r Hr. apply in_map_iff in Hr.
  destruct Hr as [k [<- _]].
  destruct Hnan as [-> | ->]; [reflexivity|].
  simpl. destruct (r0_m meta); reflexivity.
Qed.

(** X3. With a finite start and a positive finite step the range axis
    starts at the start range, its entry [i] is [start + step * i], and it
    never decreases. *)
Theorem range_axis_nondecreasing slc data az rng meta a b :
  _get_data_and_axes parse_float parse_int asarray_other slc
    = Ok (data, az, rng, meta) ->
  r0_m meta = Fin a -> dr_m meta = Fin b -> 0 < b ->
  (forall i, (i < length rng)%nat ->
     nth i rng NaN = fadd (Fin a) (fmul (Fin b) (of_nat i))) /\
  (rng <> [] -> exists x, nth 0 rng NaN = Fin x /\ x == a) /\
  (forall i j, (i <= j)%nat -> (j < length rng)%nat ->
     fle (nth i rng NaN) (nth j rng NaN) = true).
Proof.
  intros H Ha Hb Hpos. apply get_axes_Ok in H.
  destruct H as (d & x & n & _ & _ & _ & _ & _ & _ & _ & -> & _).
  rewrite length_map, length_arange_n.
  assert (Hnth : forall i, (i < Z.to_nat n)%nat ->
            nth i (map (fun k => fadd (r0_m meta) (fmul (dr_m meta) k))
                     (arange_n n)) NaN
            = Fin (a + b * inject_Z (Z.of_nat i))).
  { intros i Hi. rewrite nth_range_axis by exact Hi. rewrite Ha, Hb. reflexivity. }
  split; [|split].
  - intros i Hi. rewrite Hnth by exact Hi. reflexivity.
  - intro Hne.
    assert (H0 : (0 < Z.to_nat n)%nat).
    { destruct (Z.to_nat n) eqn:E; [|lia].
      exfalso. apply Hne. unfold arange_n. rewrite E. reflexivity. }
    eexists. split; [apply Hnth; exact H0|]. simpl. ring.
  - intros i j Hij Hj. rewrite !Hnth by lia. simpl.
    apply Qle_bool_iff.
    assert (inject_Z (Z.of_nat i) <= inject_Z (Z.of_nat j))
      by (rewrite <- Zle_Qle; lia).
    nra.
Qed.

(** X4. The fabricated azimuths are strictly increasing. *)
Theorem uniform_azimuth_increasing slc data az rng meta :
  get_axes' slc = Ok (data, az, rng, meta) ->
  declares slc "angles" "a" = Ok false ->
  forall i j, (i < j)%nat -> (j < length az)%nat ->
    exists x y, nth i az NaN = Fin x /\ nth j az NaN = Fin y /\ x < y.
Proof.
  intros H Hno i j Hij Hj. apply get_axes_Ok in H.
  destruct H as (d & x & n & -> & _ & -> & _ & _ & _ & _ & _ & Haz).
  unfold azimuths in Haz. rewrite Hno in Haz. simpl bind in Haz.
  inv_ok Haz. inversion Haz; subst az; clear Haz.
  rewrite linspace_length in Hj.
  exists (az_at i a), (az_at j a).
  split; [apply linspace_nth; lia|]. split; [apply linspace_nth; exact Hj|].
  unfold az_at.
  assert (Hn : 0 < inject_Z (Z.of_nat a)) by (apply inject_nat_pos; lia).
  assert (Hs : 0 < (360 + - 0) / inject_Z (Z.of_nat a)).
  { apply Qlt_shift_div_l; [exact Hn | reflexivity]. }
  assert (inject_Z (Z.of_nat i) < inject_Z (Z.of_nat j))
    by (rewrite <- Zlt_Qlt; lia).
  nra.
Qed.

(** X5. An [@elevation], [@rstart] or [@rscale] that [float()] rejects is
    fatal, unlike a radar position: the extraction raises the conversion
    error of the first such field, in that order. *)
Theorem metadata_conversion_is_fatal d x e :
  lookup "data" d = Some x ->
  let conv k dflt := py_float parse_float (dict_get d k (PFloat (Fin dflt))) in
  (conv "@elevation" 0 = Raise e -> get_axes' (PDict d) = Raise e) /\
  (forall el, conv "@elevation" 0 = Ok el -> conv "@rstart" 0 = Raise e ->
     get_axes' (PDict d) = Raise e) /\
  (forall el r0, conv "@elevation" 0 = Ok el -> conv "@rstart" 0 = Ok r0 ->
     conv "@rscale" 1000 = Raise e -> get_axes' (PDict d) = Raise e).
Proof.
  intros Hx conv. unfold _get_data_and_axes. simpl.
  unfold dict_mem. rewrite Hx. simpl. subst conv. simpl.
  split; [|split].
  - intros ->. reflexivity.
  - intros el -> ->. reflexivity.
  - intros el r0 -> -> ->. reflexivity.
Qed.

(** Name, units and values of the dataset [read_azi] returns. *)
Lemma read_azi_Ok_var path ds :
  read_azi' path = Ok ds ->
  exists t d data az rng meta param,
    read_rainbow path = Ok (PDict t) /\
    _extract_slice (PDict t) = Ok (PDict d) /\
    get_axes' (PDict d) = Ok (data, az, rng, meta) /\
    dict_get d "param" (PDict []) = PDict param /\
    ds_name ds = dict_get param "@name" (PStr "dBZ") /\
    ds_var_attrs ds = [("units", dict_get param "@units" (PStr "dBZ"))] /\
    ds_values ds = data /\
    lookup "elevation_deg" (ds_attrs ds) = Some (PFloat (elevation_deg meta)) /\
    lookup "source" (ds_attrs ds) = Some (PStr "Rainbow .azi").
Proof.
  intro Hok.
  destruct (read_azi_Ok _ _ _ _ _ _ _ Hok)
    as (t & v & slc & data & az & rng & meta & info & Ht & _ & Hslc & Hax & _
        & _ & Hval & _ & _ & _ & _ & _ & Hattrs).
  destruct (get_axes_Ok _ _ _ _ _ _ _ _ Hax) as (d & x & n & -> & _).
  unfold read_azi in Hok. destruct (negb _); [discriminate|].
  rewrite Ht in Hok. simpl bind in Hok. rewrite Hslc in Hok. simpl bind in Hok.
  rewrite Hax in Hok. simpl bind in Hok.
  inv_ok Hok. apply py_get_Ok in Ha. destruct Ha as [param [Hp ->]].
  inv_ok Hok. apply py_get_Ok in Ha. destruct Ha as [param' [Hp' ->]].
  rewrite Hp in Hp'. inversion Hp'; subst param'; clear Hp'.
  inv_ok Hok.
  apply xr_DataArray_Ok in Ha. destruct Ha as [_ ->].
  repeat inv_ok Hok.
  match goal with E : to_dataset _ = Ok _ |- _ => apply to_dataset_Ok in E; rewrite E in * end.
  injection Hok as Hds. rewrite <- Hds in *. simpl in *.
  exists t, d, data, az, rng, meta, param.
  repeat split; auto.
Qed.

(** X6. Defaults of [read_azi]: a slice without [@elevation] gives
    [elevation_deg = 0.0]; a slice without [param] gives a variable named
    dBZ with units dBZ, and a [param] block supplies them otherwise; the
    values are the decoded data block as it is. *)
Theorem read_azi_defaults path ds :
  read_azi' path = Ok ds ->
  exists t d x,
    read_rainbow path = Ok (PDict t) /\
    _extract_slice (PDict t) = Ok (PDict d) /\
    lookup "data" d = Some x /\
    ds_values ds = np_asarray asarray_other x /\
    (lookup "@elevation" d = None ->
       lookup "elevation_deg" (ds_attrs ds) = Some (PFloat (Fin 0))) /\
    (lookup "param" d = None ->
       ds_name ds = PStr "dBZ" /\ ds_var_attrs ds = [("units", PStr "dBZ")]) /\
    (forall p, lookup "param" d = Some (PDict p) ->
       ds_name ds = dict_get p "@name" (PStr "dBZ") /\
       ds_var_attrs ds = [("units", dict_get p "@units" (PStr "dBZ"))]).
Proof.
  intro Hok.
  destruct (read_azi_Ok_var _ _ Hok)
    as (t & d & data & az & rng & meta & param & Ht & Hslc & Hax & Hp & Hn & Hu
        & Hv & He & _).
  destruct (get_axes_Ok _ _ _ _ _ _ _ _ Hax)
    as (d' & x & n & Ed & Hx & Hdata & Hel & _).
  inversion Ed; subst d'; clear Ed.
  exists t, d, x. repeat split; auto.
  - congruence.
  - intro Habs. unfold dict_get in Hel. rewrite Habs in Hel. simpl in Hel.
    congruence.
  - unfold dict_get in Hp. rewrite H in Hp. inversion Hp; subst param.
    exact Hn.
  - unfold dict_get in Hp. rewrite H in Hp. inversion Hp; subst param.
    exact Hu.
  - unfold dict_get in Hp. rewrite H in Hp. inversion Hp; subst param.
    exact Hn.
  - unfold dict_get in Hp. rewrite H in Hp. inversion Hp; subst param.
    exact Hu.
Qed.

(** X7. No dataset comes out of inconsistent axes: when the bin count the
    first ray declares differs from the trailing dimension of the data, or
    the data is not 2-D with one row per azimuth, [read_azi] raises. *)
Theorem inconsistent_axes_raise path tree slc data az rng meta :
  read_rainbow path = Ok tree ->
  _extract_slice tree = Ok slc ->
  get_axes' slc = Ok (data, az, rng, meta) ->
  (shape data <> [length az; length rng] ->
   exists e, read_azi' path = Raise e) /\
  (forall n m, bin_count parse_int slc data = Ok n -> shape_last data = Ok m ->
     Z.to_nat n <> m -> exists e, read_azi' path = Raise e).
Proof.
  intros Ht Hslc Hax.
  assert (Hgen : shape data <> [length az; length rng] ->
                 exists e, read_azi' path = Raise e).
  { intro Hne. destruct (read_azi' path) as [ds|e] eqn:E; [|eauto].
    exfalso.
    destruct (read_azi_Ok _ _ _ _ _ _ _ E)
      as (t & v & slc' & data' & az' & rng' & meta' & info & Ht' & _ & Hslc'
          & Hax' & _ & Hsh & _).
    rewrite Ht in Ht'. inversion Ht'; subst tree.
    rewrite Hslc in Hslc'. inversion Hslc'; subst slc'.
    rewrite Hax in Hax'. inversion Hax'; subst. contradiction. }
  split; [exact Hgen|].
  intros n m Hn Hm Hne. apply Hgen. intro Hsh.
  destruct (get_axes_Ok _ _ _ _ _ _ _ _ Hax)
    as (d & x & n' & _ & _ & _ & _ & _ & _ & Hn' & Hrng & _).
  rewrite Hn in Hn'. inversion Hn'; subst n'.
  unfold shape_last in Hm. rewrite Hsh in Hm. simpl in Hm.
  inversion Hm; subst m. apply Hne.
  rewrite Hrng, length_map, length_arange_n. reflexivity.
Qed.

End ExtractorMore.


(** * Further properties of the georeferencing *)

Section GeorefMore.

Variable deg2rad : float -> float.
Variable parse_float : string -> option float.

(** X10. [polar_dataset_to_lonlat] never returns a dataset.  It raises the
    error of [float()] when the [elevation_deg] attribute does not convert,
    and otherwise the [TypeError] of the call of [spherical_to_xyz]; which of
    the two depends on that attribute alone, not on the axes, the values or
    the radar position. *)
Theorem to_lonlat_never_returns ds rlon rlat ralt :
  (forall ds',
     polar_dataset_to_lonlat deg2rad parse_float ds rlon rlat ralt <> Ok ds') /\
  (forall e,
     polar_dataset_to_lonlat deg2rad parse_float ds rlon rlat ralt = Raise e <->
     elevation_of parse_float ds = Raise e \/
     ((exists elev, elevation_of parse_float ds = Ok elev) /\
      e = TypeError msg_site)).
Proof.
  destruct (elevation_of parse_float ds) as [elev|e0] eqn:He.
  - rewrite (to_lonlat_stops deg2rad parse_float ds elev rlon rlat ralt He).
    split; [intros ds'; discriminate|].
    intro e. split.
    + intro H. inversion H. right. split; [eauto | reflexivity].
    + intros [H | [_ ->]]; [discriminate | reflexivity].
  - rewrite (to_lonlat_conversion_error deg2rad parse_float ds e0 rlon rlat ralt He).
    split; [intros ds'; discriminate|].
    intro e. split.
    + intro H. left. inversion H. reflexivity.
    + intros [H | [[elev H] _]]; [inversion H; reflexivity | discriminate].
Qed.

End GeorefMore.


(** * Further properties of the gridding *)

Section GriddingMore.

Variable epsg_valid : Z -> bool.
Variable transform : Z -> float -> float -> float * float.
Variable f32 : float -> float.
Variable f64 : Q -> float.

Local Abbreviation to_grid := (polar_to_grid_2d epsg_valid transform f32 f64).

(** X12. No non-finite value survives in a produced grid: every cell is a
    finite number or the (float32) nodata value. *)
Theorem grid_cells_finite_or_nodata ds epsg dx dy buffer_m nodata g :
  polar_to_grid_2d epsg_valid transform f32 f64 ds epsg dx dy buffer_m nodata
    = Ok g ->
  Forall (fun c => isfinite c = true \/ c = f32 nodata) (flat (g_values g)).
Proof.
  intro H.
  destruct (to_grid_Ok _ _ _ _ _ _ _ _ _ _ _ H)
    as (lon & lat & xmin & xmax & ymin & ymax & _ & _ & _ & Hrest).
  cbv zeta in Hrest.
  destruct Hrest as (_ & _ & _ & _ & _ & _ & Hval & _).
  rewrite Hval. simpl. unfold grid_cells.
  apply Forall_forall. intros c Hc.
  destruct (map snd (candidates _ _)).
  - right. apply repeat_spec in Hc. exact Hc.
  - apply in_map_iff in Hc. destruct Hc as [q [<- _]]. unfold cell.
    destruct (isfinite (f32 _)) eqn:E; [left; exact E | right; reflexivity].
Qed.

Lemma arange_Raise a b c e :
  arange f64 a b c = Raise e ->
  e = ValueError "arange: cannot compute length" \/
  e = ValueError "Maximum allowed size exceeded".
Proof.
  unfold arange. destruct (rdiv f64 (rsub f64 b a) c) as [q| | |];
    try solve [intro H; inversion H; auto].
  destruct (max_intp <? Qceiling q)%Z; intro H; inversion H; auto.
Qed.

(** X13. The exceptions of [polar_to_grid_2d], in the order they are
    tried: a missing lon, then a missing lat ([KeyError]), then an unknown
    EPSG code, then a dataset without any sample ([ValueError] of
    [np.nanmin]); and on a dataset that passes these, a cell size of zero
    always ends in one of the two errors of [np.arange]. *)
Theorem to_grid_errors ds epsg dx dy buffer_m nodata :
  (ds_lon ds = None ->
   polar_to_grid_2d epsg_valid transform f32 f64 ds epsg dx dy buffer_m nodata
     = Raise (KeyError "lon")) /\
  (ds_lon ds <> None -> ds_lat ds = None ->
   to_grid ds epsg dx dy buffer_m nodata = Raise (KeyError "lat")) /\
  (ds_lon ds <> None -> ds_lat ds <> None -> epsg_valid epsg = false ->
   to_grid ds epsg dx dy buffer_m nodata = Raise (CRSError epsg)) /\
  (forall lon lat, ds_lon ds = Some lon -> ds_lat ds = Some lat ->
     epsg_valid epsg = true -> projected transform epsg lon lat = [] ->
     to_grid ds epsg dx dy buffer_m nodata
       = Raise (ValueError "zero-size array to reduction operation fmin which has no identity")) /\
  (forall lon lat q, ds_lon ds = Some lon -> ds_lat ds = Some lat ->
     epsg_valid epsg = true -> projected transform epsg lon lat <> [] ->
     dx = Fin q \/ dy = Fin q -> q == 0 ->
     to_grid ds epsg dx dy buffer_m nodata
       = Raise (ValueError "arange: cannot compute length") \/
     to_grid ds epsg dx dy buffer_m nodata
       = Raise (ValueError "Maximum allowed size exceeded")).
Proof.
  unfold polar_to_grid_2d.
  split; [intros ->; reflexivity|].
  split; [intros Hl ->; destruct (ds_lon ds); [reflexivity | congruence]|].
  split.
  { intros Hl Ht ->. destruct (ds_lon ds); [|congruence].
    destruct (ds_lat ds); [reflexivity | congruence]. }
  split.
  { intros lon lat -> -> -> E. unfold projected in E. simpl. rewrite E.
    reflexivity. }
  intros lon lat q -> -> -> Hne Hstep Hq. unfold projected in Hne. simpl bind.
  simpl negb. cbv iota.
  destruct (map _ (combine (flat lon) (flat lat))) as [|p XY]; [congruence|].
  simpl nanmin. simpl nanmax. cbn [bind].
  match goal with
  | |- bind (arange f64 ?a ?b ?c) _ = _ \/ _ =>
      destruct (arange f64 a b c) as [xs|e] eqn:Ex
  end.
  - cbn [bind]. destruct Hstep as [-> | ->].
    + match type of Ex with
      | arange f64 ?a ?b (Fin q) = _ =>
          destruct (arange_zero_step f64 a b q Hq) as [R | R];
            rewrite R in Ex; discriminate
      end.
    + match goal with
      | |- bind (arange f64 ?a ?b (Fin q)) _ = _ \/ _ =>
          destruct (arange_zero_step f64 a b q Hq) as [R | R];
            rewrite R; [left | right]; reflexivity
      end.
  - cbn [bind]. apply arange_Raise in Ex. destruct Ex as [-> | ->]; auto.
Qed.

End GriddingMore.

(** * Properties of the script *)

Lemma lookup_app k (d1 d2 : dict) :
  lookup k (d1 ++ d2) =
  match lookup k d1 with Some v => Some v | None => lookup k d2 end.
Proof.
  induction d1 as [|[k' v'] d1 IH]; simpl; [reflexivity|].
  destruct (String.eqb k k'); [reflexivity | exact IH].
Qed.

Lemma lookup_setdefault k d k' v :
  lookup k (setdefault d k' v) =
  match lookup k d with
  | Some x => Some x
  | None => if String.eqb k k' then Some v else None
  end.
Proof.
  unfold setdefault, dict_mem.
  destruct (lookup k' d) as [x'|] eqn:E'.
  - destruct (lookup k d) eqn:E; [reflexivity|].
    destruct (String.eqb k k') eqn:Ek; [|reflexivity].
    apply String.eqb_eq in Ek. subst k'. congruence.
  - rewrite lookup_app. destruct (lookup k d); [reflexivity|]. simpl.
    destruct (String.eqb k k'); reflexivity.
Qed.

(** The attributes [save_netcdf] writes: those of the dataset, untouched,
    and the five defaults for the keys it lacks. *)
Lemma lookup_global_attrs k attrs :
  lookup k (global_attrs attrs) =
  match lookup k attrs with
  | Some v => Some v
  | None =>
      if String.eqb k "Conventions" then Some (PStr "CF-1.8")
      else if String.eqb k "title" then Some (PStr "CAXX radar product")
      else if String.eqb k "institution"
      then Some (PStr "ETAPA EP - Departamento de Investigación y Monitoreo")
      else if String.eqb k "source" then Some (PStr "Rainbow .azi via wradlib")
      else if String.eqb k "history"
      then Some (PStr "Created by caxx-radar/scripts/parse_azi.py")
      else None
  end.
Proof.
  unfold global_attrs. cbv zeta. rewrite !lookup_setdefault.
  destruct (lookup k attrs) as [v|] eqn:E; [reflexivity|].
  destruct (String.eqb k "Conventions") eqn:E1; [reflexivity|].
  destruct (String.eqb k "title") eqn:E2; [reflexivity|].
  destruct (String.eqb k "institution") eqn:E3; [reflexivity|].
  destruct (String.eqb k "source") eqn:E4; [|reflexivity].
  apply String.eqb_eq in E4. subst k.
  unfold dict_get. rewrite !lookup_setdefault, E. reflexivity.
Qed.

Lemma content_attrs_assign c a : content_attrs (assign_attrs c a) = a.
Proof. destruct c; reflexivity. Qed.

Section SaveFacts.

Variable f32 : float -> float.

Local Abbreviation save := (save_netcdf f32).

(** X14. Global attributes written by [save_netcdf]: every attribute of
    the dataset is written with its own value (a default never replaces
    it), the five descriptive keys are always present, nothing else is
    added, and a dataset without [source] gets the wradlib default. *)
Theorem save_netcdf_attrs c name nodata :
  let written := content_attrs (nc_data (save c name nodata)) in
  (forall k v, lookup k (content_attrs c) = Some v -> lookup k written = Some v) /\
  (forall k, In k default_attr_keys -> lookup k written <> None) /\
  (forall k, lookup k written <> None ->
     lookup k (content_attrs c) <> None \/ In k default_attr_keys) /\
  (lookup "source" (content_attrs c) = None ->
     lookup "source" written = Some (PStr "Rainbow .azi via wradlib")).
Proof.
  unfold save_netcdf. simpl. rewrite content_attrs_assign.
  split; [|split; [|split]].
  - intros k v H. rewrite lookup_global_attrs, H. reflexivity.
  - intros k Hk. rewrite lookup_global_attrs.
    destruct (lookup k (content_attrs c)); [discriminate|].
    simpl in Hk. destruct Hk as [<-|[<-|[<-|[<-|[<-|[]]]]]]; discriminate.
  - intros k. rewrite lookup_global_attrs.
    destruct (lookup k (content_attrs c)); [left; discriminate|].
    intro H. right. unfold default_attr_keys.
    destruct (String.eqb k "Conventions") eqn:E1;
      [apply String.eqb_eq in E1; subst; simpl; auto|].
    destruct (String.eqb k "title") eqn:E2;
      [apply String.eqb_eq in E2; subst; simpl; auto|].
    destruct (String.eqb k "institution") eqn:E3;
      [apply String.eqb_eq in E3; subst; simpl; auto|].
    destruct (String.eqb k "source") eqn:E4;
      [apply String.eqb_eq in E4; subst; simpl; auto|].
    destruct (String.eqb k "history") eqn:E5;
      [apply String.eqb_eq in E5; subst; simpl; auto 6|].
    congruence.
  - intro H. rewrite lookup_global_attrs, H. reflexivity.
Qed.

(** X15. Encoding written by [save_netcdf].  Every data variable is stored
    as float32, with the float32 cast of [nodata] as fill value exactly when
    [nodata] is given.  A coordinate whose array is floating-point is stored
    as float32; any other coordinate gets an empty encoding, so it keeps its
    own type.  No coordinate ever gets a fill value.  The coordinates of the
    polar dataset and of the grid are all stored as float32. *)
Theorem save_netcdf_encoding c name nodata :
  let enc := nc_encoding (save_netcdf f32 c name nodata) in
  (forall v, In v (content_vars c) ->
     In (v, ("dtype", PStr "float32") ::
            match nodata with
            | Some nd => [("_FillValue", PFloat (f32 nd))]
            | None => []
            end) enc) /\
  (forall k, In k (content_coords c) ->
     In (PStr k, if is_floating (coord_dtype c k)
                 then [("dtype", PStr "float32")] else []) enc) /\
  (forall k e, In (k, e) enc -> lookup "_FillValue" e <> None ->
     In k (content_vars c) /\ exists nd, nodata = Some nd) /\
  ((exists ds, c = NcPolar ds) \/ (exists g, c = NcGrid g) ->
   forall k e, In (k, e) enc -> lookup "dtype" e = Some (PStr "float32")).
Proof.
  unfold save_netcdf. simpl.
  split; [|split; [|split]].
  - intros v Hv. apply in_or_app. left.
    apply in_map_iff. exists v. split; [reflexivity | exact Hv].
  - intros k Hk. apply in_or_app. right. apply in_map_iff. exists k. auto.
  - intros k e H Hf. apply in_app_or in H. destruct H as [H | H];
      apply in_map_iff in H; destruct H as [x [E Hx]]; inversion E; subst.
    + split; [exact Hx|]. destruct nodata; [eauto|]. simpl in Hf. congruence.
    + unfold coord_encoding in Hf.
      destruct (is_floating _); simpl in Hf; congruence.
  - intros Hc k e H. apply in_app_or in H. destruct H as [H | H];
      apply in_map_iff in H; destruct H as [x [E Hx]]; inversion E; subst.
    + reflexivity.
    + destruct Hc as [[ds ->] | [g ->]]; reflexivity.
Qed.

End SaveFacts.

Section ScriptFacts.

Variable parse_float : string -> option float.
Variable parse_int : string -> option Z.
Variable asarray_other : pyval -> ndarray.
Variable suffix_lower : string -> string.
Variable read_rainbow : string -> result pyval.
Variable deg2rad : float -> float.
Variable epsg_valid : Z -> bool.
Variable transform : Z -> float -> float -> float * float.
Variable f32 : float -> float.
Variable f64 : Q -> float.

Local Abbreviation read_azi' :=
  (read_azi parse_float parse_int asarray_other suffix_lower read_rainbow).
Local Abbreviation grid_stage' :=
  (grid_stage parse_float parse_int deg2rad epsg_valid transform f32 f64).
Local Abbreviation main' :=
  (main parse_float parse_int asarray_other suffix_lower read_rainbow deg2rad
     epsg_valid transform f32 f64).

(** The radar position [main] hands to the georeferencing is the one
    [read_azi] stored, whatever the configuration says. *)
Lemma grid_stage_position path ds c r :
  read_azi' path = Ok ds ->
  lookup "radar" c = Some (PDict r) ->
  lookup "lon" r <> None -> lookup "lat" r <> None -> lookup "alt_m" r <> None ->
  exists rlon rlat ralt,
    lookup "radar_lon" (ds_attrs ds) = Some (PFloat rlon) /\
    lookup "radar_lat" (ds_attrs ds) = Some (PFloat rlat) /\
    lookup "radar_alt_m" (ds_attrs ds) = Some (PFloat ralt) /\
    (exists elev, elevation_of parse_float ds = Ok elev) /\
    grid_stage' ds (PDict c) =
      (ds_ll <- polar_dataset_to_lonlat deg2rad parse_float ds rlon rlat ralt ;;
       c_epsg <- cfg2 (PDict c) "projection" "epsg" ;;
       epsg <- py_int parse_int c_epsg ;;
       c_dx <- cfg2 (PDict c) "grid" "dx" ;;
       dx <- py_float parse_float c_dx ;;
       c_dy <- cfg2 (PDict c) "grid" "dy" ;;
       dy <- py_float parse_float c_dy ;;
       c_buf <- cfg2 (PDict c) "grid" "buffer_m" ;;
       buffer_m <- py_float parse_float c_buf ;;
       c_nd <- cfg2 (PDict c) "io" "nodata" ;;
       nodata <- py_float parse_float c_nd ;;
       ds_grid <- polar_to_grid_2d epsg_valid transform f32 f64 ds_ll epsg dx dy
                    buffer_m nodata ;;
       Ok (mk_GridDataset (g_name ds_grid) (g_values ds_grid) (g_x ds_grid)
             (g_y ds_grid) (g_var_attrs ds_grid)
             (dict_update (g_attrs ds_grid)
                [ ("grid_mapping", PStr ("EPSG:" ++ string_of_Z epsg));
                  ("dx", PFloat dx); ("dy", PFloat dy);
                  ("method", dict_get (g_attrs ds_grid) "method"
                               (PStr "nearest (K=1)")) ]),
           nodata)).
Proof.
  intros Hok Hr Hlon Hlat Halt.
  destruct (read_azi_Ok _ _ _ _ _ _ _ Hok)
    as (t & v & slc & data & az & rng & meta & info & _ & _ & _ & _ & _ & _ & _
        & _ & _ & _ & _ & _ & Hattrs).
  destruct (lookup "lon" r) as [vlon|] eqn:E1; [|congruence].
  destruct (lookup "lat" r) as [vlat|] eqn:E2; [|congruence].
  destruct (lookup "alt_m" r) as [valt|] eqn:E3; [|congruence].
  do 3 eexists. rewrite Hattrs.
  split; [reflexivity|]. split; [reflexivity|]. split; [reflexivity|].
  split; [unfold elevation_of; rewrite Hattrs; eexists; reflexivity|].
  unfold grid_stage. rewrite Hattrs.
  unfold cfg2 at 1 2 3. cbn [py_getitem]. rewrite Hr. cbn [bind py_getitem].
  rewrite E1, E2, E3. reflexivity.
Qed.

(** The grid stage of [main] never completes. *)
Lemma grid_stage_raises ds cfg : exists e, grid_stage' ds cfg = Raise e.
Proof.
  unfold grid_stage.
  do 6 match goal with
       | |- exists e, bind ?r _ = Raise e =>
           destruct r as [?|?]; cbn [bind]; [|eauto]
       end.
  match goal with
  | |- exists e, bind (polar_dataset_to_lonlat _ _ _ ?a ?b ?c) _ = Raise e =>
      destruct (elevation_of parse_float ds) as [elev|e0] eqn:He;
        [ rewrite (to_lonlat_stops deg2rad parse_float ds elev a b c He)
        | rewrite (to_lonlat_conversion_error deg2rad parse_float ds e0 a b c He) ]
  end; cbn [bind]; eauto.
Qed.

(** X16. The radar position of the configuration is never used: [main]
    georeferences with the position [read_azi] stored (NaN when the file
    has none), so changing [radar.lon], [radar.lat] and [radar.alt_m] in the
    configuration changes nothing; yet the [radar] section must exist, for
    without it the grid stage raises [KeyError]. *)
Theorem config_position_unused args c r r' :
  lookup "radar" c = Some (PDict r) ->
  (forall k, In k ["lon"; "lat"; "alt_m"] ->
     lookup k r <> None /\ lookup k r' <> None) ->
  main' args (PDict (("radar", PDict r') :: c)) = main' args (PDict c) /\
  (forall ds c0, read_azi' (a_file args) = Ok ds -> a_nc_grid args = true ->
     lookup "radar" c0 = None ->
     snd (main' args (PDict c0)) = Raise (KeyError "radar")).
Proof.
  intros Hr Hkeys. split.
  - unfold main.
    destruct (read_azi' (a_file args)) as [ds|e] eqn:Hok; [|reflexivity].
    destruct (Hkeys "lon") as [A1 B1]; [simpl; auto|].
    destruct (Hkeys "lat") as [A2 B2]; [simpl; auto|].
    destruct (Hkeys "alt_m") as [A3 B3]; [simpl; auto|].
    destruct (grid_stage_position _ ds c r Hok Hr A1 A2 A3)
      as (rlon & rlat & ralt & L1 & L2 & L3 & _ & E).
    destruct (grid_stage_position _ ds (("radar", PDict r') :: c) r' Hok
                eq_refl B1 B2 B3)
      as (rlon' & rlat' & ralt' & L1' & L2' & L3' & _ & E').
    rewrite L1 in L1'. rewrite L2 in L2'. rewrite L3 in L3'.
    inversion L1'; inversion L2'; inversion L3'; subst rlon' rlat' ralt'.
    rewrite E, E'. reflexivity.
  - intros ds c0 Hok Hg Hnone. unfold main. rewrite Hok, Hg.
    unfold grid_stage, cfg2. cbn [py_getitem]. rewrite Hnone. simpl.
    destruct (a_nc_polar args); reflexivity.
Qed.

(** X18. The script never writes a grid file.  A run with [--nc-grid]
    always ends in an exception, and the only file it can have written is
    the polar one, when [--nc-polar] was given and the file could be read.
    When the file is read and the configuration carries the three radar
    keys, the exception is the [TypeError] of the georeferencing. *)
Theorem grid_file_never_written args cfg :
  a_nc_grid args = true ->
  let run :=
    main parse_float parse_int asarray_other suffix_lower read_rainbow deg2rad
      epsg_valid transform f32 f64 args cfg in
  (exists e, snd run = Raise e) /\
  (fst run = [] \/
   exists ds,
     read_azi' (a_file args) = Ok ds /\ a_nc_polar args = true /\
     fst run =
       [save_netcdf f32 (NcPolar ds) (a_out_prefix args ++ "_polar.nc") None]) /\
  (forall ds c r,
     read_azi' (a_file args) = Ok ds -> cfg = PDict c ->
     lookup "radar" c = Some (PDict r) ->
     lookup "lon" r <> None -> lookup "lat" r <> None ->
     lookup "alt_m" r <> None ->
     snd run = Raise (TypeError msg_site)).
Proof.
  intros Hg run. subst run. unfold main. rewrite Hg.
  destruct (read_azi' (a_file args)) as [ds|e] eqn:Hok.
  - destruct (grid_stage_raises ds cfg) as [e He]. rewrite He. simpl.
    split; [eauto|]. split.
    + destruct (a_nc_polar args) eqn:Hp; [right | left; reflexivity].
      exists ds. auto.
    + intros ds' c r Hds -> Hr K1 K2 K3. inversion Hds; subst ds'.
      destruct (grid_stage_position _ ds c r Hok Hr K1 K2 K3)
        as (rlon & rlat & ralt & _ & _ & _ & [elev Hel] & E).
      rewrite E in He.
      rewrite (to_lonlat_stops deg2rad parse_float ds elev rlon rlat ralt Hel)
        in He.
      simpl in He. inversion He. reflexivity.
  - simpl. split; [eauto|]. split; [left; reflexivity|].
    intros ds c r Hds. discriminate.
Qed.

End ScriptFacts.

(** * Further properties: provenance of values and metadata *)

Lemma argmin_from_range l :
  forall best bd i,
    let k := argmin_from best bd i l in
    k = best \/ (i <= k < i + length l)%nat.
Proof.
  induction l as [|d t IH]; intros best bd i; simpl; [left; reflexivity|].
  destruct (flt d bd).
  - specialize (IH i d (S i)). simpl in IH. destruct IH as [-> | H]; right; lia.
  - specialize (IH best bd (S i)). simpl in IH. destruct IH as [H | H];
      [left; exact H | right; lia].
Qed.

Lemma argmin_lt l : l <> [] -> (argmin l < length l)%nat.
Proof.
  destruct l as [|d t]; [congruence|]. intros _. simpl.
  pose proof (argmin_from_range t O d 1%nat) as H. simpl in H.
  destruct H as [-> | H]; lia.
Qed.

Section GridProvenance.

Variable epsg_valid : Z -> bool.
Variable transform : Z -> float -> float -> float * float.
Variable f32 : float -> float.
Variable f64 : Q -> float.

(** X19. Nearest-neighbour gridding invents no value: every cell of a
    produced grid is the float32 nodata value or the float32 cast of a
    finite value of the input field. *)
Theorem grid_values_from_input ds epsg dx dy buffer_m nodata g :
  polar_to_grid_2d epsg_valid transform f32 f64 ds epsg dx dy buffer_m nodata
    = Ok g ->
  Forall (fun c => c = f32 nodata \/
                   exists v, In v (flat (ds_values ds)) /\
                             isfinite v = true /\ c = f32 v)
         (flat (g_values g)).
Proof.
  intro H.
  destruct (to_grid_Ok _ _ _ _ _ _ _ _ _ _ _ H)
    as (lon & lat & xmin & xmax & ymin & ymax & _ & _ & _ & Hrest).
  cbv zeta in Hrest.
  destruct Hrest as (_ & _ & _ & _ & _ & _ & Hval & _).
  rewrite Hval. simpl. unfold grid_cells.
  set (cands := candidates (ds_values ds) (projected transform epsg lon lat)).
  apply Forall_forall. intros c Hc.
  destruct (map snd cands) as [|p0 pts'] eqn:Ep.
  - left. apply repeat_spec in Hc. exact Hc.
  - rewrite <- Ep in Hc. apply in_map_iff in Hc. destruct Hc as [q [<- _]].
    unfold cell. destruct (isfinite (f32 _)) eqn:E; [|left; reflexivity].
    right. set (k := query (map snd cands) q).
    assert (Hk : (k < length cands)%nat).
    { unfold k, query.
      pose proof (argmin_lt (map (dist2 q) (map snd cands))) as Hlt.
      rewrite !length_map in Hlt. apply Hlt. rewrite Ep. discriminate. }
    exists (nth k (map fst cands) NaN).
    assert (Hin : In (nth k cands (NaN, (NaN, NaN))) cands)
      by (apply nth_In; exact Hk).
    assert (Ev : nth k (map fst cands) NaN = fst (nth k cands (NaN, (NaN, NaN)))).
    { change NaN with (fst (NaN, (NaN, NaN))) at 1. apply map_nth. }
    rewrite Ev. unfold cands, candidates in Hin. apply filter_In in Hin.
    destruct Hin as [Hin Hfin]. destruct (nth k _ _) as [v xy]. simpl.
    split; [apply in_combine_l in Hin; exact Hin|].
    split; [|reflexivity].
    unfold all_finite in Hfin. rewrite !andb_true_iff in Hfin. simpl in Hfin. tauto.
Qed.

(** X20. Name and units travel from the polar dataset to the grid: the
    variable of a produced grid has the name of the input variable and a
    single attribute, [units], which is the input variable's [units] or the
    empty string when it has none; every other attribute of the input
    variable is dropped. *)
Theorem units_reach_grid ds epsg dx dy buffer_m nodata g :
  polar_to_grid_2d epsg_valid transform f32 f64 ds epsg dx dy buffer_m nodata
    = Ok g ->
  g_name g = ds_name ds /\
  (forall u, lookup "units" (ds_var_attrs ds) = Some u ->
     lookup "units" (g_var_attrs g) = Some u) /\
  (lookup "units" (ds_var_attrs ds) = None ->
     lookup "units" (g_var_attrs g) = Some (PStr "")) /\
  (forall k, k <> "units" -> lookup k (g_var_attrs g) = None).
Proof.
  intro H.
  destruct (to_grid_Ok _ _ _ _ _ _ _ _ _ _ _ H)
    as (lon & lat & xmin & xmax & ymin & ymax & _ & _ & _ & Hrest).
  cbv zeta in Hrest.
  destruct Hrest as (_ & _ & _ & _ & _ & _ & _ & Hn & _ & Ha & _).
  split; [exact Hn|]. rewrite Ha. unfold dict_get. simpl.
  split; [intros u ->; reflexivity|].
  split; [intros ->; reflexivity|].
  intros k Hk. destruct (String.eqb k "units") eqn:E; [|reflexivity].
  apply String.eqb_eq in E. contradiction.
Qed.

End GridProvenance.

Section ProvenanceFacts.

Variable parse_float : string -> option float.
Variable parse_int : string -> option Z.
Variable asarray_other : pyval -> ndarray.

(** X21. [_extract_slice] returns a value exactly when the tree, its
    [volume] and the volume's [scan] are dicts, and what it returns is then
    whatever [scan] binds to [slice], provided that is not [None]; a list of
    slices is returned as it is. *)
Theorem extract_slice_iff tree slc :
  _extract_slice tree = Ok slc <->
  exists t v sc,
    tree = PDict t /\
    dict_get t "volume" PNone = PDict v /\
    dict_get v "scan" PNone = PDict sc /\
    dict_get sc "slice" PNone = slc /\ slc <> PNone.
Proof.
  split; [apply extract_slice_Ok|].
  intros (t & v & sc & -> & Hv & Hs & Hl & Hne).
  unfold _extract_slice. simpl. rewrite Hv. simpl. rewrite Hs. simpl.
  rewrite Hl. destruct slc; try reflexivity. congruence.
Qed.

End ProvenanceFacts.

(** * The further properties at work on the demonstration inputs *)

Lemma axes_nan_start_value :
  demo_axes (PDict slice_nan_start) = Ok extracted_nan_start.
Proof. vm_compute. reflexivity. Qed.

Lemma nan_range_propagates_witness :
  demo_axes (PDict slice_nan_start) = Ok extracted_nan_start /\
  r0_m (snd extracted_nan_start) = NaN /\
  Forall (fun r => r = NaN) [NaN; NaN].
Proof.
  split; [exact axes_nan_start_value|]. split; [reflexivity|].
  exact (nan_range_propagates parse_ufloat parse_uint asarray_obj
           (PDict slice_nan_start) _ _ _ _ axes_nan_start_value
           (or_introl eq_refl)).
Defined.

Lemma range_axis_nondecreasing_witness :
  demo_axes (PDict demo_slice) = Ok demo_extracted /\
  0 < 1000 /\
  nth 2 [Fin 500; Fin 1500; Fin 2500] NaN
    = fadd (Fin 500) (fmul (Fin 1000) (of_nat 2)) /\
  fle (nth 0 [Fin 500; Fin 1500; Fin 2500] NaN)
      (nth 2 [Fin 500; Fin 1500; Fin 2500] NaN) = true.
Proof.
  split; [exact demo_axes_value|]. split; [reflexivity|].
  destruct (range_axis_nondecreasing parse_ufloat parse_uint asarray_obj
              (PDict demo_slice) _ _ _ _ 500 1000 demo_axes_value
              eq_refl eq_refl eq_refl) as (Hnth & _ & Hinc).
  split.
  - apply (Hnth 2%nat). simpl. lia.
  - apply (Hinc 0%nat 2%nat); simpl; lia.
Defined.

Lemma uniform_azimuth_increasing_witness :
  demo_axes (PDict demo_slice) = Ok demo_extracted /\
  declares (PDict demo_slice) "angles" "a" = Ok false /\
  exists x y, nth 0 [Fin (0 # 2); Fin (360 # 2)] NaN = Fin x /\
              nth 1 [Fin (0 # 2); Fin (360 # 2)] NaN = Fin y /\ x < y.
Proof.
  split; [exact demo_axes_value|]. split; [reflexivity|].
  apply (uniform_azimuth_increasing parse_ufloat parse_uint asarray_obj
           (PDict demo_slice) _ _ _ _ demo_axes_value eq_refl 0%nat 1%nat);
    simpl; lia.
Defined.

Lemma metadata_conversion_is_fatal_witness :
  lookup "data" slice_bad_elevation
    = Some (PArr (mk_ndarray [1; 2]%nat [Fin 10; Fin 11])) /\
  demo_axes (PDict slice_bad_elevation)
    = Raise (ValueError "could not convert string to float").
Proof.
  split; [reflexivity|].
  destruct (metadata_conversion_is_fatal parse_ufloat parse_uint asarray_obj
              slice_bad_elevation _
              (ValueError "could not convert string to float") eq_refl)
    as [H _].
  apply H. reflexivity.
Defined.

Lemma demo_read_azi_value : demo_read_azi "sweep.azi" = Ok demo_polar.
Proof. vm_compute. reflexivity. Qed.

Lemma read_azi_defaults_witness :
  demo_read_azi "sweep.azi" = Ok demo_polar /\
  lookup "elevation_deg" (ds_attrs demo_polar) = Some (PFloat (Fin 0)) /\
  ds_name demo_polar = PStr "dBZ".
Proof.
  split; [exact demo_read_azi_value|].
  destruct (read_azi_defaults parse_ufloat parse_uint asarray_obj last4 demo_read
              "sweep.azi" demo_polar demo_read_azi_value)
    as (t & d & x & Ht & Hd & _ & _ & Hel & Hpar & _).
  inversion Ht; subst t. vm_compute in Hd. inversion Hd; subst d.
  split; [apply Hel; reflexivity|]. apply Hpar. reflexivity.
Defined.

Lemma axes_five_bins_value :
  demo_axes (PDict slice_five_bins) = Ok extracted_five_bins.
Proof. vm_compute. reflexivity. Qed.

Lemma inconsistent_axes_raise_witness :
  demo_axes (PDict slice_five_bins) = Ok extracted_five_bins /\
  exists e,
    read_azi parse_ufloat parse_uint asarray_obj last4
      (fun _ => Ok tree_five_bins) "sweep.azi" = Raise e.
Proof.
  split; [exact axes_five_bins_value|].
  destruct (inconsistent_axes_raise parse_ufloat parse_uint asarray_obj last4
              (fun _ => Ok tree_five_bins) "sweep.azi" tree_five_bins
              (PDict slice_five_bins) _ _ _ _ eq_refl eq_refl
              axes_five_bins_value) as [_ H].
  apply (H 5%Z 3%nat); [reflexivity | reflexivity | simpl; lia].
Defined.

Lemma demo_single_grid_value :
  demo_grid demo_single 32717 (Fin 500) (Fin 500) (Fin 1000) nodata0
    = Ok demo_single_grid.
Proof. vm_compute. reflexivity. Qed.

Lemma grid_cells_finite_or_nodata_witness :
  demo_grid demo_single 32717 (Fin 500) (Fin 500) (Fin 1000) nodata0
    = Ok demo_single_grid /\
  Forall (fun c => isfinite c = true \/ c = f32_overflow nodata0)
         (flat (g_values demo_single_grid)).
Proof.
  split; [exact demo_single_grid_value|].
  exact (grid_cells_finite_or_nodata only_utm17s plane_transform f32_overflow
           round64 demo_single 32717 (Fin 500) (Fin 500) (Fin 1000) nodata0
           demo_single_grid demo_single_grid_value).
Defined.

Lemma config_position_unused_witness :
  lookup "radar" demo_cfg_body
    = Some (PDict [("lon", PFloat (Fin (-79))); ("lat", PFloat (Fin (-3)));
                   ("alt_m", PInt 4450)]) /\
  demo_main tree_located demo_args
    (PDict (("radar", PDict [("lon", PInt 0); ("lat", PInt 0); ("alt_m", PInt 0)])
              :: demo_cfg_body))
  = demo_main tree_located demo_args (PDict demo_cfg_body).
Proof.
  split; [reflexivity|].
  apply (config_position_unused parse_ufloat parse_uint asarray_obj last4
           (fun _ => Ok (PDict tree_located)) (fun x => x)
           only_utm17s plane_transform f32_overflow round64 demo_args
           demo_cfg_body
           [("lon", PFloat (Fin (-79))); ("lat", PFloat (Fin (-3)));
            ("alt_m", PInt 4450)]
           [("lon", PInt 0); ("lat", PInt 0); ("alt_m", PInt 0)] eq_refl).
  intros k Hk. simpl in Hk.
  destruct Hk as [<- | [<- | [<- | []]]]; split; discriminate.
Defined.

Lemma grid_file_never_written_witness :
  a_nc_grid demo_args = true /\
  demo_main tree_located demo_args (PDict demo_cfg_body)
  = ([save_netcdf f32_overflow (NcPolar demo_polar_located) "caxx_polar.nc" None],
     Raise (TypeError
              "spherical_to_xyz() missing 1 required positional argument: 'site'")).
Proof.
  split; [reflexivity|].
  destruct (grid_file_never_written parse_ufloat parse_uint asarray_obj last4
              (fun _ => Ok (PDict tree_located)) (fun x => x)
              only_utm17s plane_transform f32_overflow round64 demo_args
              (PDict demo_cfg_body) eq_refl)
    as (_ & Hfiles & Hend).
  fold (demo_main tree_located) in Hfiles, Hend.
  specialize (Hend demo_polar_located demo_cfg_body
                [("lon", PFloat (Fin (-79))); ("lat", PFloat (Fin (-3)));
                 ("alt_m", PInt 4450)]).
  assert (Hf : fst (demo_main tree_located demo_args (PDict demo_cfg_body))
               = [save_netcdf f32_overflow (NcPolar demo_polar_located)
                    "caxx_polar.nc" None]).
  { destruct Hfiles as [Hnil | (ds & Hds & _ & Hf)].
    - vm_compute in Hnil. discriminate.
    - vm_compute in Hds. inversion Hds; subst ds. exact Hf. }
  assert (Hs : snd (demo_main tree_located demo_args (PDict demo_cfg_body))
               = Raise (TypeError msg_site)).
  { apply Hend; [vm_compute; reflexivity | reflexivity | reflexivity
                | discriminate | discriminate | discriminate]. }
  rewrite (surjective_pairing (demo_main tree_located demo_args (PDict demo_cfg_body))).
  rewrite Hf, Hs. reflexivity.
Defined.

Lemma grid_values_from_input_witness :
  demo_grid demo_single 32717 (Fin 500) (Fin 500) (Fin 1000) nodata0
    = Ok demo_single_grid /\
  Forall (fun c => c = f32_overflow nodata0 \/
                   exists v, In v (flat (ds_values demo_single)) /\
                             isfinite v = true /\ c = f32_overflow v)
         (flat (g_values demo_single_grid)).
Proof.
  split; [exact demo_single_grid_value|].
  exact (grid_values_from_input only_utm17s plane_transform f32_overflow
           round64 demo_single 32717 (Fin 500) (Fin 500) (Fin 1000) nodata0
           demo_single_grid demo_single_grid_value).
Defined.

Lemma units_reach_grid_witness :
  demo_grid demo_scan 32717 (Fin 500) (Fin 500) (Fin 1000) nodata0
    = Ok demo_scan_grid /\
  lookup "units" (ds_var_attrs demo_scan) = Some (PStr "dBZ") /\
  g_name demo_scan_grid = PStr "dBZ" /\
  lookup "units" (g_var_attrs demo_scan_grid) = Some (PStr "dBZ").
Proof.
  split; [exact demo_scan_grid_value|]. split; [reflexivity|].
  destruct (units_reach_grid only_utm17s plane_transform f32_overflow round64
              demo_scan 32717 (Fin 500) (Fin 500) (Fin 1000) nodata0
              demo_scan_grid demo_scan_grid_value)
    as (Hn & Hu & _).
  split; [exact Hn|]. apply Hu. reflexivity.
Defined.

(** [save_netcdf] on a dataset with an integer coordinate: the coordinate
    is left as it is. *)
Lemma demo_other_encoding :
  nc_encoding (save_netcdf f32_overflow demo_other "other.nc" None)
  = [ (PStr "rain", [("dtype", PStr "float32")]);
      (PStr "time", []);
      (PStr "height", [("dtype", PStr "float32")]) ].
Proof. reflexivity. Qed.
